(** * NewsHub: the Redis service layer, embedded and checked against its specification

    The service code of NewsHub (redisService.js, cacheClearService.js and
    newsProcessor.js, as listed in REDIS.md) and the topic selection of the
    preference form (PreferenceSetup.tsx) are embedded as functions over an
    explicit Redis state.

    Conventions of the embedding:
    - every key family of the persisted layout is one field of [Redis]; the
      key prefix ([news:articles:], [user:preferences:], ...) is the field;
    - [Date.now()] is the [clock] field, in milliseconds; a key with a TTL
      carries its deadline and is absent for every read once the clock has
      reached it;
    - a Redis command is atomic and total: connection failures are outside
      the model, so the only rejections are the ones the code raises itself
      or receives from the AI provider;
    - JavaScript numbers are integers where the code counts and rationals
      where it divides; [Math.exp], the full-text matcher of the search
      index, the vector distance of the vector index and the Gemini provider
      are parameters of the definitions that use them. *)

From Stdlib Require Import ZArith QArith String Ascii List Sorted Permutation Lia Lqa.
From stdpp Require Import base option gmap strings list sorting pretty.

Open Scope string_scope.

(** ** JavaScript values *)

(** The payload of a cache entry is an arbitrary JSON value. *)
#[local] Unset Elimination Schemes.
Inductive json : Type :=
  | JNull
  | JBool (b : bool)
  | JNum (n : Z)
  | JStr (s : string)
  | JArr (items : list json)
  | JObj (fields : list (string * json)).
#[local] Set Elimination Schemes.

(** JavaScript truthiness, as used by [if (cached && cached.data)]. *)
Definition truthy (v : json) : bool :=
  match v with
  | JNull => false
  | JBool b => b
  | JNum n => negb (n =? 0)%Z
  | JStr s => negb (String.eqb s "")
  | JArr _ => true
  | JObj _ => true
  end.

(** The result of an async function: it resolves or it rejects. *)
Inductive outcome (A : Type) : Type :=
  | Returned (a : A)
  | Thrown (message : string).
Arguments Returned {A} a.
Arguments Thrown {A} message.

Definition fulfilled {A} (r : outcome A) : bool :=
  match r with Returned _ => true | Thrown _ => false end.

Definition rejected {A} (r : outcome A) : bool := negb (fulfilled r).

(** ** Documents *)

Record Article : Type := mkArticle {
  art_id : string;
  art_title : string;
  art_content : string;
  art_summary : string;
  art_sentiment : string;
  art_topic : string;
  art_source : string;
  art_url : string;
  art_publishedAt : Z;
  art_embedding : option (list Q);
  art_keywords : list string
}.

(** What [analyzeContent] of the AI provider yields. *)
Record Analysis : Type := mkAnalysis {
  an_summary : string;
  an_sentiment : string;
  an_keywords : list string;
  an_topics : list string
}.

(** A raw article as the fetcher hands it to [processNewsArticle]. *)
Record RawArticle : Type := mkRaw {
  raw_id : string;
  raw_title : string;
  raw_content : string;
  raw_topic : string;
  raw_source : string;
  raw_url : string;
  raw_publishedAt : Z
}.

(** The object passed to [storeUserPreferences] and returned by
    [getUserPreferences]; an absent [sentiment] or [language] is [None]. *)
Record Preferences : Type := mkPreferences {
  topics : list string;
  sources : list string;
  pref_sentiment : option string;
  pref_language : option string;
  updatedAt : Z
}.

(** The JSON document behind [cache:results:<key>]. *)
Record CacheDoc : Type := mkCacheDoc {
  data : json;
  timestamp : Z;
  ttl : Z
}.

(** ** The Redis state *)

(** A value together with the deadline [EXPIRE] gave its key. *)
Record timed (V : Type) : Type := mkTimed {
  payload : V;
  deadline : option Z
}.
Arguments mkTimed {V} payload deadline.
Arguments payload {V} t.
Arguments deadline {V} t.

Definition live {V} (now : Z) (t : timed V) : bool :=
  match deadline t with
  | None => true
  | Some d => (now <? d)%Z
  end.

(** Reading a key that may have expired. *)
Definition fetch {V} (now : Z) (m : gmap string (timed V)) (key : string) : option V :=
  match m !! key with
  | Some t => if live now t then Some (payload t) else None
  | None => None
  end.

Record Redis : Type := mkRedis {
  clock : Z;
  articles : gmap string Article;
  preferences : gmap string (timed Preferences);
  viewed : gmap string (gset string);
  personalized : gmap string (gset string);
  engagement : gmap string (timed (gmap string Z));
  trending : list (string * Q);
  cache : gmap string (timed CacheDoc)
}.

Definition empty_redis (now : Z) : Redis :=
  mkRedis now ∅ ∅ ∅ ∅ ∅ [] ∅.

Definition with_articles (f : gmap string Article → gmap string Article) (s : Redis) : Redis :=
  mkRedis (clock s) (f (articles s)) (preferences s) (viewed s) (personalized s)
          (engagement s) (trending s) (cache s).

Definition with_preferences
    (f : gmap string (timed Preferences) → gmap string (timed Preferences)) (s : Redis) : Redis :=
  mkRedis (clock s) (articles s) (f (preferences s)) (viewed s) (personalized s)
          (engagement s) (trending s) (cache s).

Definition with_viewed (f : gmap string (gset string) → gmap string (gset string)) (s : Redis) : Redis :=
  mkRedis (clock s) (articles s) (preferences s) (f (viewed s)) (personalized s)
          (engagement s) (trending s) (cache s).

Definition with_personalized
    (f : gmap string (gset string) → gmap string (gset string)) (s : Redis) : Redis :=
  mkRedis (clock s) (articles s) (preferences s) (viewed s) (f (personalized s))
          (engagement s) (trending s) (cache s).

Definition with_engagement
    (f : gmap string (timed (gmap string Z)) → gmap string (timed (gmap string Z)))
    (s : Redis) : Redis :=
  mkRedis (clock s) (articles s) (preferences s) (viewed s) (personalized s)
          (f (engagement s)) (trending s) (cache s).

Definition with_trending (f : list (string * Q) → list (string * Q)) (s : Redis) : Redis :=
  mkRedis (clock s) (articles s) (preferences s) (viewed s) (personalized s)
          (engagement s) (f (trending s)) (cache s).

Definition with_cache
    (f : gmap string (timed CacheDoc) → gmap string (timed CacheDoc)) (s : Redis) : Redis :=
  mkRedis (clock s) (articles s) (preferences s) (viewed s) (personalized s)
          (engagement s) (trending s) (f (cache s)).

(** Time passing between two commands. *)
Definition elapse (ms : Z) (s : Redis) : Redis :=
  mkRedis (clock s + ms) (articles s) (preferences s) (viewed s) (personalized s)
          (engagement s) (trending s) (cache s).

(** ** Redis commands *)

(** [EXPIRE key seconds]: a non-positive timeout deletes the key. *)
Definition expire {V} (now : Z) (key : string) (seconds : Z)
    (m : gmap string (timed V)) : gmap string (timed V) :=
  match fetch now m key with
  | None => delete key m
  | Some v =>
      if (seconds <=? 0)%Z then delete key m
      else <[key := mkTimed v (Some (now + seconds * 1000)%Z)]> m
  end.

(** Writing a value keeps the deadline of a key that is still alive. *)
Definition store_value {V} (now : Z) (key : string) (v : V)
    (m : gmap string (timed V)) : gmap string (timed V) :=
  match m !! key with
  | Some t => if live now t then <[key := mkTimed v (deadline t)]> m
              else <[key := mkTimed v None]> m
  | None => <[key := mkTimed v None]> m
  end.

(** [HGETALL]: the empty object for a missing key. *)
Definition hgetall (now : Z) (m : gmap string (timed (gmap string Z))) (key : string)
    : gmap string Z :=
  default ∅ (fetch now m key).

(** [HINCRBY key field n] and [HSET key field v]. *)
Definition hincrby (now : Z) (key field : string) (n : Z)
    (m : gmap string (timed (gmap string Z))) : gmap string (timed (gmap string Z)) :=
  let h := hgetall now m key in
  store_value now key (<[field := (default 0 (h !! field) + n)%Z]> h) m.

Definition hset (now : Z) (key field : string) (v : Z)
    (m : gmap string (timed (gmap string Z))) : gmap string (timed (gmap string Z)) :=
  store_value now key (<[field := v]> (hgetall now m key)) m.

(** [SADD] and [SREM] on a set key. *)
Definition sadd (key member : string) (m : gmap string (gset string)) : gmap string (gset string) :=
  <[key := {[member]} ∪ default ∅ (m !! key)]> m.

Definition srem (key member : string) (m : gmap string (gset string)) : gmap string (gset string) :=
  match m !! key with
  | Some members =>
      let rest := members ∖ {[member]} in
      if decide (rest = ∅) then delete key m else <[key := rest]> m
  | None => m
  end.

(** ** Sorting, as the index and the sorted set do it *)

Section Sorting.
Context {A : Type} (before : A → A → bool).

Fixpoint insert_sorted (x : A) (l : list A) : list A :=
  match l with
  | [] => [x]
  | y :: rest => if before x y then x :: l else y :: insert_sorted x rest
  end.

Fixpoint sort_by (l : list A) : list A :=
  match l with
  | [] => []
  | x :: rest => insert_sorted x (sort_by rest)
  end.
End Sorting.

(** ** Engagement tracking (redisService.js) *)

Definition SEVEN_DAYS : Z := 7 * 24 * 60 * 60.

Definition trackEngagement (s : Redis) (articleId action : string) : Redis :=
  let now := clock s in
  let actionKey := action ++ ":count" in
  with_engagement (fun m =>
    expire now articleId SEVEN_DAYS
      (hset now articleId "last_updated" now
        (hincrby now articleId actionKey 1 m))) s.

(** The weighted sum of the three counters of a metrics hash. *)
Definition weighted_score (metrics : gmap string Z) : Z :=
  let viewCount := default 0%Z (metrics !! "view:count") in
  let likeCount := default 0%Z (metrics !! "like:count") in
  let shareCount := default 0%Z (metrics !! "share:count") in
  (viewCount + (likeCount * 2) + (shareCount * 3))%Z.

Definition getEngagementScore (s : Redis) (articleId : string) : Z :=
  let metrics := hgetall (clock s) (engagement s) articleId in
  if Nat.eqb (size metrics) 0 then 1%Z
  else Z.max (weighted_score metrics) 1.

(** ** The trending sorted set *)

(** [ZADD trending:articles score member]: one entry per member. *)
Fixpoint zadd (score : Q) (member : string) (z : list (string * Q)) : list (string * Q) :=
  match z with
  | [] => [(member, score)]
  | (m, sc) :: rest =>
      if String.eqb m member then (member, score) :: rest
      else (m, sc) :: zadd score member rest
  end.

(** One [ZADD] for each score, in turn. *)
Definition zadd_all (scores : list (string * Q)) (z : list (string * Q)) : list (string * Q) :=
  fold_left (fun z entry => zadd entry.2 entry.1 z) scores z.

(** The ranking a list of scores builds on an empty key. *)
Definition ranking_of (scores : list (string * Q)) : list (string * Q) :=
  zadd_all scores [].

(** The order of [ZREVRANGE]: higher score first, equal scores by member,
    lexicographically last first. *)
Definition zrev_before (x y : string * Q) : bool :=
  match (x.2 ?= y.2)%Q with
  | Gt => true
  | Lt => false
  | Eq => negb (String.ltb x.1 y.1)
  end.

(** [ZREVRANGE key start stop WITHSCORES]; a negative index counts from the
    end of the ranking. *)
Definition zrevrange (z : list (string * Q)) (start stop : Z) : list (string * Q) :=
  let ranked := sort_by zrev_before z in
  let n := Z.of_nat (length ranked) in
  let first := if (start <? 0)%Z then Z.max (n + start) 0 else start in
  let last := if (stop <? 0)%Z then (n + stop)%Z else Z.min stop (n - 1) in
  if (last <? first)%Z then []
  else take (Z.to_nat (last - first + 1)) (drop (Z.to_nat first) ranked).

(** ** The search index [news:search_index] *)

(** [FILTER '@publishedAt:[0 +inf]'] of [createSearchIndex]. *)
Definition index_filter (a : Article) : bool := (0 <=? art_publishedAt a)%Z.

(** The documents under [news:articles:] that the index holds, each with
    its key. *)
Definition indexed (s : Redis) : list (string * Article) :=
  List.filter (fun doc => index_filter doc.2) (map_to_list (articles s)).

Inductive Field : Type := FSentiment | FTopic | FSource.

Definition field_of (f : Field) (a : Article) : string :=
  match f with
  | FSentiment => art_sentiment a
  | FTopic => art_topic a
  | FSource => art_source a
  end.

(** One clause of a query string. [TextAny q] is
    [(@title:q | @content:q | @summary:q)], [Tag f [v1; v2]] is
    [@f:{v1|v2}], [PublishedIn a b] is [@publishedAt:[a b]]. The clauses of
    a query are joined by spaces, which is conjunction; the query [*] has
    no clause. *)
Inductive clause : Type :=
  | TextAny (q : string)
  | Tag (f : Field) (values : list string)
  | PublishedIn (start stop : Z).

(** The documents a search returns to the caller. *)
Record Hit : Type := mkHit {
  hit_id : string;
  hit_title : string;
  hit_content : string;
  hit_sentiment : string;
  hit_topic : string;
  hit_source : string
}.

Definition to_hit (doc : string * Article) : Hit :=
  {| hit_id := doc.1;
     hit_title := art_title doc.2;
     hit_content := art_content doc.2;
     hit_sentiment := art_sentiment doc.2;
     hit_topic := art_topic doc.2;
     hit_source := art_source doc.2 |}.

(** [SORTBY '@publishedAt'], ascending as the index sorts by default. *)
Definition by_publishedAt (x y : string * Article) : bool :=
  (art_publishedAt x.2 <=? art_publishedAt y.2)%Z.

Record TrendingArticle : Type := mkTrending {
  tr_article : Article;
  trendingScore : Q
}.

(** [getPersonalizedNews] answers with trending articles or with hits. *)
Inductive Feed : Type :=
  | TrendingFeed (items : list TrendingArticle)
  | SearchFeed (hits : list Hit).

Definition feed_ids (f : Feed) : list string :=
  match f with
  | TrendingFeed items => map (fun t => art_id (tr_article t)) items
  | SearchFeed hits => map hit_id hits
  end.


(** A string option that passes [if (x)]: present and not empty. *)
Definition present (x : option string) : option string :=
  match x with
  | Some v => if String.eqb v "" then None else Some v
  | None => None
  end.

Record SimilarHit : Type := mkSimilar {
  sim_id : string;
  sim_title : string;
  sim_content : string;
  sim_sentiment : string;
  sim_topic : string;
  similarity : Q
}.

(** A search without [LIMIT] returns the first ten results. *)
Definition DEFAULT_LIMIT : nat := 10.

Record BatchReport : Type := mkReport {
  total : nat;
  successful : nat;
  failed : nat
}.

(** The commands [updateTrendingArticles] sends once it has the scores. *)
Inductive command : Type :=
  | DEL_trending
  | ZADD_trending (score : Q) (member : string).

Definition exec (s : Redis) (c : command) : Redis :=
  match c with
  | DEL_trending => with_trending (fun _ => []) s
  | ZADD_trending score member => with_trending (zadd score member) s
  end.

Definition run (cmds : list command) (s : Redis) : Redis := fold_left exec cmds s.


(** ** An async computation over the Redis state *)

Definition Async (A : Type) : Type := Redis → Redis * outcome A.

Definition resolve {A} (a : A) : Async A := fun s => (s, Returned a).

Definition await {A B} (m : Async A) (k : A → Async B) : Async B :=
  fun s =>
    match m s with
    | (s', Returned a) => k a s'
    | (s', Thrown e) => (s', Thrown e)
    end.

Definition settled {A} (r : outcome A) : Async A := fun s => (s, r).

Definition command_of (f : Redis → Redis) : Async unit := fun s => (f s, Returned tt).

#[global] Instance async_ret : MRet Async := fun A a => resolve a.
#[global] Instance async_bind : MBind Async := fun A B k m => await m k.

(** [Promise.allSettled]: every computation runs, whatever the others do.
    The promises are taken one after the other, in the order of the list. *)
Fixpoint allSettled {A} (promises : list (Async A)) (s : Redis) : Redis * list (outcome A) :=
  match promises with
  | [] => (s, [])
  | p :: rest =>
      let '(s1, r) := p s in
      let '(s2, rs) := allSettled rest s1 in
      (s2, r :: rs)
  end.

(** ** The services *)

Section Services.
(** [Math.exp]. *)
Variable Math_exp : Q → Q.
(** Whether a text field of a document matches a query term. *)
Variable text_matches : string → string → bool.
(** The [COSINE] distance of the vector index. *)
Variable distance : list Q → list Q → Q.
(** [gemini.analyzeContent] and [gemini.generateEmbedding]. *)
Variable analyzeContent : string → outcome Analysis.
Variable generateEmbedding : string → outcome (list Q).

Definition clause_matches (a : Article) (c : clause) : bool :=
  match c with
  | TextAny q =>
      text_matches q (art_title a) || text_matches q (art_content a)
      || text_matches q (art_summary a)
  | Tag f values => existsb (String.eqb (field_of f a)) values
  | PublishedIn start stop =>
      (start <=? art_publishedAt a)%Z && (art_publishedAt a <=? stop)%Z
  end.

Definition query_matches (searchQuery : list clause) (a : Article) : bool :=
  forallb (clause_matches a) searchQuery.

(** Every match of a query, in the order of [SORTBY '@publishedAt']. *)
Definition matches (s : Redis) (searchQuery : list clause) : list (string * Article) :=
  sort_by by_publishedAt
    (List.filter (fun doc => query_matches searchQuery doc.2) (indexed s)).

(** [ft.search('news:search_index', searchQuery,
    {SORTBY: '@publishedAt', LIMIT: {from, size}})]. *)
Definition ft_search (s : Redis) (searchQuery : list clause) (from size : nat)
    : list (string * Article) :=
  take size (drop from (matches s searchQuery)).

(** *** redisService.js: JSON storage and full-text search *)

Definition createSearchIndex (s : Redis) : Redis := s.

Definition storeArticle (article : Article) : Async string :=
  command_of (with_articles (insert (art_id article) article));;
  command_of createSearchIndex;;
  mret (art_id article).



(** *** redisService.js: vector search *)

Definition by_score {A} (x y : A * Q) : bool := Qle_bool x.2 y.2.

(** [*=>[KNN $k @embedding $embedding AS score]]: the [k] indexed
    documents nearest to the query vector, each with its distance. *)
Definition knn (s : Redis) (k : nat) (embedding : list Q)
    : list ((string * Article) * Q) :=
  take k
    (sort_by by_score
      (flat_map
        (fun doc =>
           match art_embedding doc.2 with
           | Some v => [(doc, distance embedding v)]
           | None => []
           end)
        (indexed s))).

Definition to_similar (r : (string * Article) * Q) : SimilarHit :=
  {| sim_id := r.1.1;
     sim_title := art_title r.1.2;
     sim_content := art_content r.1.2;
     sim_sentiment := art_sentiment r.1.2;
     sim_topic := art_topic r.1.2;
     similarity := r.2 |}.

Definition findSimilarArticles (s : Redis) (articleId : string) (limit : nat)
    : outcome (list SimilarHit) :=
  match articles s !! articleId with
  | None => Thrown "Article or embedding not found"
  | Some article =>
      match art_embedding article with
      | None => Thrown "Article or embedding not found"
      | Some embedding =>
          let results := take DEFAULT_LIMIT (sort_by by_score (knn s limit embedding)) in
          Returned (map to_similar results)
      end
  end.

(** *** cacheClearService.js *)

Definition setCacheWithTTL (s : Redis) (key : string) (payload : json) (seconds : Z) : Redis :=
  let now := clock s in
  with_cache (fun m =>
    expire now key seconds
      (store_value now key
         {| data := payload; timestamp := now; ttl := seconds |} m)) s.

Definition getCache (s : Redis) (key : string) : json :=
  match fetch (clock s) (cache s) key with
  | Some cached => if truthy (data cached) then data cached else JNull
  | None => JNull
  end.

(** *** redisService.js: preferences and the personalized feed *)

Definition THIRTY_DAYS : Z := 30 * 24 * 60 * 60.

Definition storeUserPreferences (userId : string) (prefs : Preferences) : Async bool :=
  fun s =>
    let now := clock s in
    let stored :=
      {| topics := topics prefs;
         sources := sources prefs;
         pref_sentiment := pref_sentiment prefs;
         pref_language := pref_language prefs;
         updatedAt := now |} in
    (with_preferences (fun m =>
       expire now userId THIRTY_DAYS (store_value now userId stored m)) s,
     Returned true).

Definition getUserPreferences (s : Redis) (userId : string) : option Preferences :=
  fetch (clock s) (preferences s) userId.

Definition getTrendingArticles (s : Redis) (limit : nat) : outcome (list TrendingArticle) :=
  let trendingIds := zrevrange (trending s) 0 (Z.of_nat limit - 1) in
  Returned
    (flat_map
       (fun entry =>
          match articles s !! entry.1 with
          | Some article => [ {| tr_article := article; trendingScore := entry.2 |} ]
          | None => []
          end)
       trendingIds).

(** The filters [getPersonalizedNews] builds from a preference record. *)
Definition personal_query (prefs : Preferences) : list clause :=
  ((if (0 <? length (topics prefs))%nat then [Tag FTopic (topics prefs)] else [])
   ++ (if (0 <? length (sources prefs))%nat then [Tag FSource (sources prefs)] else [])
   ++ match present (pref_sentiment prefs) with
      | Some v => [Tag FSentiment [v]]
      | None => []
      end)%list.

Definition getPersonalizedNews (s : Redis) (userId : string) (limit : nat) : outcome Feed :=
  match getUserPreferences s userId with
  | None =>
      match getTrendingArticles s limit with
      | Returned items => Returned (TrendingFeed items)
      | Thrown e => Thrown e
      end
  | Some prefs =>
      let results := ft_search s (personal_query prefs) 0 limit in
      Returned (SearchFeed (map to_hit results))
  end.

Definition trackArticleView (s : Redis) (userId articleId : string) : Redis :=
  let s1 := with_viewed (sadd userId articleId) s in
  let s2 := with_personalized (srem userId articleId) s1 in
  trackEngagement s2 articleId "view".

(** *** redisService.js: trending *)

Definition DAY_MS : Z := 24 * 60 * 60 * 1000.

(** The scores one refresh computes from its scan of the index. The keys of
    the scanned documents are distinct, so the object [trendingScores] gets
    one property per document; its entries are taken in the order in which
    they were written. *)
Definition trendingScores (s : Redis) : list (string * Q) :=
  map
    (fun doc =>
       let articleId := doc.1 in
       let publishedAt := art_publishedAt doc.2 in
       let now := clock s in
       let timeDecay := Math_exp (- inject_Z (now - publishedAt) / inject_Z DAY_MS)%Q in
       let engagementScore := getEngagementScore s articleId in
       (articleId, (timeDecay * inject_Z engagementScore)%Q))
    (ft_search s [] 0 1000).

Definition updateTrendingArticles_commands (s : Redis) : list command :=
  DEL_trending :: map (fun entry => ZADD_trending entry.2 entry.1) (trendingScores s).

Definition updateTrendingArticles (s : Redis) : Redis :=
  run (updateTrendingArticles_commands s) s.


(** *** newsProcessor.js *)

Definition processNewsArticle (article : RawArticle) : Async Article :=
  analysis ← settled (analyzeContent (raw_content article));
  embedding ← settled (generateEmbedding (raw_content article));
  let processedArticle :=
    {| art_id := raw_id article;
       art_title := raw_title article;
       art_content := raw_content article;
       art_summary := an_summary analysis;
       art_sentiment := an_sentiment analysis;
       art_topic := raw_topic article;
       art_source := raw_source article;
       art_url := raw_url article;
       art_publishedAt := raw_publishedAt article;
       art_embedding := Some embedding;
       art_keywords := an_keywords analysis |} in
  storeArticle processedArticle;;
  command_of updateTrendingArticles;;
  command_of createSearchIndex;;
  mret processedArticle.

(** Whether both calls to the provider succeed for an article. *)
Definition enriched (article : RawArticle) : bool :=
  fulfilled (analyzeContent (raw_content article))
  && fulfilled (generateEmbedding (raw_content article)).

Definition processBatch (batch : list RawArticle) : Async BatchReport :=
  fun s =>
    let promises := map processNewsArticle batch in
    let '(s', results) := allSettled promises s in
    let successful := length (List.filter fulfilled results) in
    let failed := length (List.filter rejected results) in
    (s', Returned {| total := length batch; successful := successful; failed := failed |}).
End Services.

(** ** PreferenceSetup.tsx: selecting topics *)




(** ** Requests (api.ts) *)





(** ** Collaborators and stores for the worked examples *)

(** A rational polynomial in place of [Math.exp]; it is exact at 0, the only
    argument the examples give it. *)
Definition exp_poly (x : Q) : Q := (1 + x + x * x / 2 + x * x * x / 6)%Q.

(** The cosine distance [1 - u.v / (|u| |v|)] on vectors of length one,
    which is what the examples store. *)
Definition unit_cosine_distance (u v : list Q) : Q :=
  (1 - fold_right Qplus 0 (map (fun p => p.1 * p.2) (combine u v)))%Q.

(** A matcher that finds the query term anywhere in the text. *)
Fixpoint contains_term (q text : string) : bool :=
  String.prefix q text
  || match text with
     | EmptyString => false
     | String _ rest => contains_term q rest
     end.

(** A provider that is unavailable for an empty text. *)
Definition demo_analyzeContent (text : string) : outcome Analysis :=
  if String.eqb text "" then Thrown "EnrichmentUnavailable"
  else Returned {| an_summary := text; an_sentiment := "neutral";
                   an_keywords := []; an_topics := [] |}.

Definition demo_generateEmbedding (text : string) : outcome (list Q) :=
  if String.eqb text "" then Thrown "EmbeddingUnavailable" else Returned [1%Q; 0%Q].

Definition demo_article (id topic : string) (publishedAt : Z) : Article :=
  {| art_id := id; art_title := id; art_content := "text"; art_summary := "text";
     art_sentiment := "neutral"; art_topic := topic; art_source := "wire";
     art_url := ""; art_publishedAt := publishedAt;
     art_embedding := Some [1%Q; 0%Q]; art_keywords := [] |}.

Definition demo_raw (id content : string) : RawArticle :=
  {| raw_id := id; raw_title := id; raw_content := content; raw_topic := "tech";
     raw_source := "wire"; raw_url := ""; raw_publishedAt := 1000 |}.

Definition demo_preferences (chosen : list string) : Preferences :=
  {| topics := chosen; sources := []; pref_sentiment := None;
     pref_language := None; updatedAt := 0 |}.

(** A store holding one article on technology, at time 1000. *)
Definition one_article : Redis :=
  with_articles (insert "a1" (demo_article "a1" "tech" 1000)) (empty_redis 1000).

(** The same store after a user has chosen the topic of that article. *)
Definition one_reader : Redis :=
  (storeUserPreferences "u1" (demo_preferences ["tech"]) one_article).1.

(** The store [one_article] after a user has saved preferences that name
    no topic. *)
Definition undecided_reader : Redis :=
  (storeUserPreferences "u2" (demo_preferences []) one_article).1.

(** The store [one_article] after a first trending refresh. *)
Definition refreshed_once : Redis :=
  updateTrendingArticles exp_poly contains_term one_article.

(** Two articles published now; the second has five views, two likes and a
    share. *)
Definition two_articles : Redis :=
  let s := with_articles (insert "a2" (demo_article "a2" "tech" 1000)) one_article in
  let views := fold_left (fun st _ => trackEngagement st "a2" "view") (seq 0 5) s in
  let likes := fold_left (fun st _ => trackEngagement st "a2" "like") (seq 0 2) views in
  trackEngagement likes "a2" "share".




(** ** Further definitions *)

(** The weight [getEngagementScore] gives one event of an action: its
    formula counts a view once, a like twice and a share three times, and
    reads no other counter. *)
Definition action_weight (action : string) : Z :=
  if String.eqb action "view" then 1
  else if String.eqb action "like" then 2
  else if String.eqb action "share" then 3
  else 0.


(** The score a rebuild gives an article: its time decay times its
    engagement score. *)
Definition trending_score (Math_exp : Q → Q) (s : Redis) (articleId : string)
    (article : Article) : Q :=
  (Math_exp (- inject_Z (clock s - art_publishedAt article) / inject_Z DAY_MS)
   * inject_Z (getEngagementScore s articleId))%Q.

(** ** userManager.ts and the save button of the preference form *)

(** The two entries the client keeps in [localStorage]; the preferences are
    kept as the JSON text of [{topics}] and read back with [JSON.parse]. *)
Record LocalStorage : Type := mkLocal {
  ai_news_user_id : option string;
  ai_news_user_preferences : option (list string)
}.

(** What the save button tells the user. *)
Inductive Toast : Type :=
  | NoTopicsSelected
  | PreferencesUpdated
  | PreferencesSaved
  | SaveError.

Module UserManager.
Section Client.
(** The calls of [newsAPI] that reach the server. *)
Variable generateUserId : outcome string.
Variable storeUserPreferences : string → list string → outcome bool.
Variable updateUserPreferences : string → list string → outcome bool.
Variable fetchUserPreferences : string → outcome (option (list string)).

Definition getUserId (ls : LocalStorage) : LocalStorage * outcome string :=
  match present (ai_news_user_id ls) with
  | Some userId => (ls, Returned userId)
  | None =>
      match generateUserId with
      | Returned userId =>
          (mkLocal (Some userId) (ai_news_user_preferences ls), Returned userId)
      | Thrown e => (ls, Thrown e)
      end
  end.

Definition getUserPreferences (ls : LocalStorage) : option (list string) :=
  ai_news_user_preferences ls.

Definition setUserPreferences (prefs : list string) (ls : LocalStorage) : LocalStorage :=
  mkLocal (ai_news_user_id ls) (Some prefs).

Definition syncPreferences (userId : string) (prefs : list string) (ls : LocalStorage)
    : LocalStorage * outcome unit :=
  match storeUserPreferences userId prefs with
  | Returned _ => (setUserPreferences prefs ls, Returned tt)
  | Thrown e => (ls, Thrown e)
  end.

Definition updatePreferences (userId : string) (prefs : list string) (ls : LocalStorage)
    : LocalStorage * outcome unit :=
  match updateUserPreferences userId prefs with
  | Returned _ => (setUserPreferences prefs ls, Returned tt)
  | Thrown e => (ls, Thrown e)
  end.

Definition loadPreferencesFromServer (userId : string) (ls : LocalStorage)
    : LocalStorage * option (list string) :=
  match fetchUserPreferences userId with
  | Returned (Some serverPreferences) =>
      (setUserPreferences serverPreferences ls, Some serverPreferences)
  | Returned None => (ls, None)
  | Thrown _ => (ls, None)
  end.

Definition hasPreferences (ls : LocalStorage) : bool :=
  match getUserPreferences ls with
  | Some prefs => (0 <? length prefs)%nat
  | None => false
  end.

Definition clearUser (ls : LocalStorage) : LocalStorage := mkLocal None None.

(** [handleSave] of PreferenceSetup.tsx: the storage afterwards, the toast
    shown, and the preferences handed to [onComplete], if it is called. *)
Definition handleSave (selectedTopics : list string) (isUpdate : bool) (ls : LocalStorage)
    : LocalStorage * Toast * option (list string) :=
  if (length selectedTopics =? 0)%nat then (ls, NoTopicsSelected, None)
  else
    match getUserId ls with
    | (ls1, Thrown _) => (ls1, SaveError, None)
    | (ls1, Returned userId) =>
        if isUpdate then
          match updatePreferences userId selectedTopics ls1 with
          | (ls2, Returned _) => (ls2, PreferencesUpdated, Some selectedTopics)
          | (ls2, Thrown _) => (ls2, SaveError, None)
          end
        else
          match syncPreferences userId selectedTopics ls1 with
          | (ls2, Returned _) => (ls2, PreferencesSaved, Some selectedTopics)
          | (ls2, Thrown _) => (ls2, SaveError, None)
          end
    end.
End Client.
End UserManager.

(** ** Trending.tsx: the figures of the trending page *)

(** The topic of an article as the client receives it: a name, or an object
    with an id and a name. *)
Inductive Topic : Type :=
  | TopicName (name : string)
  | TopicObject (id name : string).

Record ClientArticle : Type := mkClientArticle {
  c_id : string;
  c_source : string;
  c_publishedAt : string;
  c_topic : Topic;
  c_sentiment : string
}.

(** [article.topic === topic] for a topic name. *)
Definition topic_is (topic : string) (article : ClientArticle) : bool :=
  match c_topic article with
  | TopicName name => String.eqb name topic
  | TopicObject _ _ => false
  end.

Record SentimentStats : Type := mkSentimentStats {
  positive : nat;
  negative : nat;
  neutral : nat
}.

Module Trending.
Section Page.
(** [new Date(publishedAt).getTime()], for the dates the server sends. *)
Variable getTime : string → Z.
Variable allArticles : list ClientArticle.
Variable topics : list string.

Definition getFilteredArticles (selectedSentiment : string) : list ClientArticle :=
  if String.eqb selectedSentiment "all" then allArticles
  else List.filter (fun article => String.eqb (c_sentiment article) selectedSentiment)
         allArticles.

Definition getTopicStats : list (string * nat) :=
  sort_by (fun a b : string * nat => (b.2 <=? a.2)%nat)
    (map (fun topic => (topic, length (List.filter (topic_is topic) allArticles))) topics).

Definition getSentimentStats : SentimentStats :=
  {| positive :=
       length (List.filter (fun a => String.eqb (c_sentiment a) "positive") allArticles);
     negative :=
       length (List.filter (fun a => String.eqb (c_sentiment a) "negative") allArticles);
     neutral :=
       length (List.filter (fun a => String.eqb (c_sentiment a) "neutral") allArticles) |}.

Definition getRecentArticles : list ClientArticle :=
  take 12
    (sort_by
       (fun a b => (getTime (c_publishedAt b) <=? getTime (c_publishedAt a))%Z)
       allArticles).
End Page.
End Trending.

(** ** config.ts: the URL of the API *)

Definition ends_with_slash (s : string) : bool :=
  match String.get (String.length s - 1) s with
  | Some c => Ascii.eqb c "/"
  | None => false
  end.

Definition starts_with_slash (s : string) : bool := String.prefix "/" s.

(** [s.slice(0, -1)]. *)
Definition slice_off_last (s : string) : string := String.substring 0 (String.length s - 1) s.

(** [import.meta.env.VITE_API_BASE_URL || 'http://localhost:3001']. *)
Definition baseUrl (VITE_API_BASE_URL : option string) : string :=
  match present VITE_API_BASE_URL with
  | Some url => url
  | None => "http://localhost:3001"
  end.

Definition getApiUrl (VITE_API_BASE_URL : option string) (endpoint : string) : string :=
  let baseUrl := baseUrl VITE_API_BASE_URL in
  let apiEndpoint := "/api" in
  let cleanBaseUrl := if ends_with_slash baseUrl then slice_off_last baseUrl else baseUrl in
  let cleanEndpoint := if starts_with_slash endpoint then endpoint else "/" ++ endpoint in
  cleanBaseUrl ++ apiEndpoint ++ cleanEndpoint.

(** [API_BASE_URL = getApiUrl()], and the URL [fetchJSON] of api.ts asks
    for: [`${API_BASE_URL}${endpoint}`]. *)
Definition API_BASE_URL (VITE_API_BASE_URL : option string) : string :=
  getApiUrl VITE_API_BASE_URL "".

Definition request_url (VITE_API_BASE_URL : option string) (endpoint : string) : string :=
  API_BASE_URL VITE_API_BASE_URL ++ endpoint.

(** * Properties *)

(** ** Sorting *)

Section SortingFacts.
Context {A : Type} (before : A → A → bool).

Lemma insert_sorted_perm (x : A) (l : list A) :
  Permutation (insert_sorted before x l) (x :: l).
Proof.
  induction l as [|y rest IH]; simpl; [reflexivity|].
  destruct (before x y); [reflexivity|].
  rewrite IH. apply perm_swap.
Qed.

Lemma sort_by_perm (l : list A) : Permutation (sort_by before l) l.
Proof.
  induction l as [|x rest IH]; simpl; [reflexivity|].
  rewrite insert_sorted_perm. now constructor.
Qed.

Lemma sort_by_length (l : list A) : length (sort_by before l) = length l.
Proof. apply Permutation_length, sort_by_perm. Qed.

Lemma sort_by_In (x : A) (l : list A) : In x (sort_by before l) ↔ In x l.
Proof.
  split; apply Permutation_in; [|symmetry]; apply sort_by_perm.
Qed.

(** A comparison that holds one way or the other yields a sorted list. *)
Hypothesis before_total : ∀ x y, before x y = false → before y x = true.

Lemma insert_sorted_HdRel (a x : A) (l : list A) :
  before a x = true → HdRel (fun u v => before u v = true) a l →
  HdRel (fun u v => before u v = true) a (insert_sorted before x l).
Proof.
  intros Hax Hl. destruct l as [|y rest]; simpl; [now constructor|].
  destruct (before x y); constructor; [assumption|].
  now inversion Hl.
Qed.

Lemma insert_sorted_Sorted (x : A) (l : list A) :
  Sorted (fun u v => before u v = true) l →
  Sorted (fun u v => before u v = true) (insert_sorted before x l).
Proof.
  induction 1 as [|y rest Hrest IH Hhd]; simpl.
  - repeat constructor.
  - destruct (before x y) eqn:Hxy.
    + constructor; [now constructor|now constructor].
    + constructor; [exact IH|].
      apply insert_sorted_HdRel; [now apply before_total|exact Hhd].
Qed.

Lemma sort_by_Sorted (l : list A) :
  Sorted (fun u v => before u v = true) (sort_by before l).
Proof.
  induction l as [|x rest IH]; simpl; [constructor|].
  now apply insert_sorted_Sorted.
Qed.
End SortingFacts.


Lemma Sorted_take {A} (R : A → A → Prop) (n : nat) (l : list A) :
  Sorted R l → Sorted R (take n l).
Proof.
  intros Hl. revert n. induction Hl as [|x l Hl IH Hhd]; intros [|n]; simpl;
    try constructor.
  - apply IH.
  - destruct Hhd; destruct n; simpl; now constructor.
Qed.

(** ** Reading a key with a deadline *)

Lemma fetch_expire_store {V} (now later : Z) (key : string) (v : V) (seconds : Z)
    (m : gmap string (timed V)) :
  (0 < seconds)%Z →
  fetch later (expire now key seconds (store_value now key v m)) key
  = if (later <? now + seconds * 1000)%Z then Some v else None.
Proof.
  intros Hpos. unfold expire.
  assert (Hfetch : fetch now (store_value now key v m) key = Some v).
  { unfold fetch, store_value.
    destruct (m !! key) as [t|] eqn:Hm.
    - destruct (live now t) eqn:Hlive; rewrite lookup_insert_eq; simpl.
      + unfold live in *. simpl. destruct (deadline t); now try rewrite Hlive.
      + reflexivity.
    - rewrite lookup_insert_eq. reflexivity. }
  rewrite Hfetch.
  destruct (seconds <=? 0)%Z eqn:Hle; [apply Z.leb_le in Hle; lia|].
  unfold fetch. rewrite lookup_insert_eq. reflexivity.
Qed.

Lemma fetch_expire_nonpositive {V} (now later : Z) (key : string) (seconds : Z)
    (m : gmap string (timed V)) :
  (seconds ≤ 0)%Z → fetch later (expire now key seconds m) key = None.
Proof.
  intros Hle. unfold expire.
  assert (Hgone : fetch later (delete key m) key = None)
    by (unfold fetch; now rewrite lookup_delete_eq).
  destruct (fetch now m key); [|exact Hgone].
  destruct (Z.leb_spec seconds 0) as [_|Hgt]; [exact Hgone|lia].
Qed.

(** ** Engagement score *)

(** C5, as the specification words it, fails on a record none of whose
    three counters is positive: after one event of another kind the record
    exists, its weighted sum is 0, and the score is 1. *)
Lemma C5_zero_sum_counterexample :
  size (hgetall 1000 (engagement (trackEngagement one_article "a1" "click")) "a1") = 2%nat
  ∧ weighted_score
      (hgetall 1000 (engagement (trackEngagement one_article "a1" "click")) "a1") = 0%Z
  ∧ getEngagementScore (trackEngagement one_article "a1" "click") "a1" = 1%Z.
Proof. repeat split; vm_compute; reflexivity. Qed.

(** C5 (amended): the engagement score is 1 when the article has no
    engagement record, and otherwise the larger of 1 and
    viewCount + 2 x likeCount + 3 x shareCount, so it equals that sum
    whenever the sum is at least 1; counters 5, 2 and 1 give 12. *)
Theorem C5_engagement_score (s : Redis) (articleId : string) (v l sh : Z) :
  let metrics := hgetall (clock s) (engagement s) articleId in
  (size metrics = 0%nat → getEngagementScore s articleId = 1%Z)
  ∧ (size metrics ≠ 0%nat →
     default 0%Z (metrics !! "view:count") = v →
     default 0%Z (metrics !! "like:count") = l →
     default 0%Z (metrics !! "share:count") = sh →
     getEngagementScore s articleId = Z.max (v + 2 * l + 3 * sh) 1
     ∧ ((1 ≤ v + 2 * l + 3 * sh)%Z →
        getEngagementScore s articleId = (v + 2 * l + 3 * sh)%Z)
     ∧ (v = 5%Z → l = 2%Z → sh = 1%Z → getEngagementScore s articleId = 12%Z)).
Proof.
  intros metrics. unfold getEngagementScore. fold metrics. split.
  - intros ->. reflexivity.
  - intros Hsize Hv Hl Hsh.
    destruct (Nat.eqb_spec (size metrics) 0) as [Hz|_]; [contradiction|].
    unfold weighted_score. rewrite Hv, Hl, Hsh.
    replace (v + l * 2 + sh * 3)%Z with (v + 2 * l + 3 * sh)%Z by lia.
    repeat split.
    + intros Hge. lia.
    + intros -> -> ->. reflexivity.
Qed.

Lemma C5_engagement_score_witness :
  size (hgetall (clock two_articles) (engagement two_articles) "a2") ≠ 0%nat
  ∧ getEngagementScore two_articles "a2" = 12%Z.
Proof.
  assert (Hsize : size (hgetall (clock two_articles) (engagement two_articles) "a2") ≠ 0%nat)
    by (vm_compute; discriminate).
  split; [exact Hsize|].
  destruct (C5_engagement_score two_articles "a2" 5 2 1) as [_ Hrecord].
  destruct (Hrecord Hsize) as (_ & _ & Htwelve);
    [vm_compute; reflexivity ..|].
  now apply Htwelve.
Defined.

(** ** Viewed articles and the personalized feed *)

(** Recording a view writes the viewed set, the personalized set and the
    engagement hash; the feed reads none of them. *)
Lemma getPersonalizedNews_trackArticleView
    (text_matches : string → string → bool) (s : Redis)
    (viewer articleId userId : string) (limit : nat) :
  getPersonalizedNews text_matches (trackArticleView s viewer articleId) userId limit
  = getPersonalizedNews text_matches s userId limit.
Proof. reflexivity. Qed.

(** C1 is what the code announces ("Auto-remove viewed articles from
    personalized feed") and does not do: once user u1, who chose the topic
    tech, has viewed article a1, a1 is in the viewed set of u1 and is still
    the answer of the feed of u1. *)
Theorem C1_viewed_article_still_served :
  topics <$> getUserPreferences (trackArticleView one_reader "u1" "a1") "u1" = Some ["tech"]
  ∧ "a1" ∈ default ∅ (viewed (trackArticleView one_reader "u1" "a1") !! "u1")
  ∧ ∃ feed,
      getPersonalizedNews contains_term (trackArticleView one_reader "u1" "a1") "u1" 20
      = Returned feed
      ∧ In "a1" (feed_ids feed).
Proof.
  split; [vm_compute; reflexivity|]. split.
  - apply (bool_decide_unpack _). vm_compute. exact I.
  - eexists. split; [vm_compute; reflexivity|]. simpl. now left.
Qed.

(** ** The feed of a user without preferences *)

(** C3, as the specification words it, fails: user u1 has no preference
    record, and the feed resolves with the trending article a1. *)
Lemma C3_no_preferences_counterexample :
  getUserPreferences refreshed_once "u1" = None
  ∧ ∃ feed,
      getPersonalizedNews contains_term refreshed_once "u1" 20 = Returned feed
      ∧ feed_ids feed = ["a1"].
Proof.
  split; [reflexivity|]. eexists. split; vm_compute; reflexivity.
Qed.

(** C3 (amended): for a user with no stored, unexpired preference record
    the feed does not fail; it resolves with what getTrendingArticles(limit)
    returns. For a stored record that names no topic, no source and no
    sentiment it resolves with the first [limit] documents of the whole
    index. *)
Theorem C3_feed_without_preferences
    (text_matches : string → string → bool) (s : Redis) (userId : string) (limit : nat) :
  (getUserPreferences s userId = None →
   ∃ items,
     getTrendingArticles s limit = Returned items
     ∧ getPersonalizedNews text_matches s userId limit = Returned (TrendingFeed items))
  ∧ (∀ prefs,
       getUserPreferences s userId = Some prefs →
       topics prefs = [] → sources prefs = [] → present (pref_sentiment prefs) = None →
       getPersonalizedNews text_matches s userId limit
       = Returned (SearchFeed (map to_hit (take limit (matches text_matches s []))))).
Proof.
  split.
  - intros Hnone. unfold getPersonalizedNews. rewrite Hnone.
    eexists. split; reflexivity.
  - intros prefs Hsome Htopics Hsources Hsentiment.
    unfold getPersonalizedNews. rewrite Hsome.
    unfold personal_query. rewrite Htopics, Hsources, Hsentiment. reflexivity.
Qed.

Lemma C3_feed_without_preferences_witness :
  (getUserPreferences refreshed_once "u1" = None
   ∧ ∃ items,
       getTrendingArticles refreshed_once 20 = Returned items
       ∧ getPersonalizedNews contains_term refreshed_once "u1" 20
         = Returned (TrendingFeed items))
  ∧ (topics <$> getUserPreferences undecided_reader "u2" = Some []
     ∧ getPersonalizedNews contains_term undecided_reader "u2" 20
       = Returned
           (SearchFeed (map to_hit (take 20 (matches contains_term undecided_reader []))))).
Proof.
  destruct (C3_feed_without_preferences contains_term refreshed_once "u1" 20) as [Hnone _].
  destruct (C3_feed_without_preferences contains_term undecided_reader "u2" 20) as [_ Hempty].
  split.
  - split; [reflexivity|]. apply Hnone. reflexivity.
  - split; [vm_compute; reflexivity|].
    eapply Hempty; [vm_compute; reflexivity | reflexivity ..].
Defined.

(** ** The result cache *)

Lemma getCache_within_ttl (s : Redis) (key : string) (v : json) (seconds d : Z) :
  truthy v = true → (0 ≤ d < seconds * 1000)%Z →
  getCache (elapse d (setCacheWithTTL s key v seconds)) key = v.
Proof.
  intros Htruthy [Hd0 Hd]. unfold getCache, setCacheWithTTL. simpl.
  rewrite fetch_expire_store by lia.
  destruct (Z.ltb_spec (clock s + d) (clock s + seconds * 1000)) as [_|Hge]; [|lia].
  simpl. now rewrite Htruthy.
Qed.

Lemma getCache_after_ttl (s : Redis) (key : string) (v : json) (seconds d : Z) :
  (seconds * 1000 ≤ d)%Z →
  getCache (elapse d (setCacheWithTTL s key v seconds)) key = JNull.
Proof.
  intros Hd. unfold getCache, setCacheWithTTL. simpl.
  destruct (Z.ltb_spec 0 seconds) as [Hpos|Hnonpos].
  - rewrite fetch_expire_store by lia.
    destruct (Z.ltb_spec (clock s + d) (clock s + seconds * 1000)) as [Hlt|_]; [lia|].
    reflexivity.
  - now rewrite fetch_expire_nonpositive.
Qed.

(** A payload that JavaScript takes for false is never handed back. *)
Lemma getCache_falsy (s : Redis) (key : string) (v : json) (seconds d : Z) :
  truthy v = false →
  getCache (elapse d (setCacheWithTTL s key v seconds)) key = JNull.
Proof.
  intros Hfalsy. unfold getCache, setCacheWithTTL. simpl.
  destruct (Z.ltb_spec 0 seconds) as [Hpos|Hnonpos].
  - rewrite fetch_expire_store by lia.
    destruct (_ <? _)%Z; simpl; [now rewrite Hfalsy|reflexivity].
  - now rewrite fetch_expire_nonpositive.
Qed.

(** C7 holds of the code for the payloads JavaScript takes for true
    ([getCache_within_ttl], [getCache_after_ttl]) and is broken by the test
    [cached && cached.data] for the others: the number 0, cached for an
    hour and read back one second later, is a miss. *)
Theorem C7_zero_payload_missed :
  (0 ≤ 1000 < 3600 * 1000)%Z
  ∧ getCache (elapse 1000 (setCacheWithTTL (empty_redis 0) "k" (JNum 0) 3600)) "k" = JNull
  ∧ getCache (elapse 1000 (setCacheWithTTL (empty_redis 0) "k" (JNum 7) 3600)) "k" = JNum 7.
Proof. split; [lia|]. split; vm_compute; reflexivity. Qed.

(** ** Preference bounds *)

(** A preference record is gone thirty days after it was last stored. *)
Lemma getUserPreferences_expired (s : Redis) (userId : string) (prefs : Preferences) (d : Z) :
  (THIRTY_DAYS * 1000 ≤ d)%Z →
  getUserPreferences (elapse d (storeUserPreferences userId prefs s).1) userId = None.
Proof.
  intros Hd. unfold getUserPreferences. simpl.
  rewrite fetch_expire_store by (unfold THIRTY_DAYS; lia).
  destruct (Z.ltb_spec (clock s + d) (clock s + THIRTY_DAYS * 1000)) as [Hlt|_];
    [lia|reflexivity].
Qed.






(** ** The window of a search *)




(** ** Similar articles *)

Lemma Sorted_map {A B} (f : A → B) (R : A → A → Prop) (R' : B → B → Prop) (l : list A) :
  (∀ x y, R x y → R' (f x) (f y)) → Sorted R l → Sorted R' (map f l).
Proof.
  intros Hf. induction 1 as [|x l Hl IH Hhd]; simpl; constructor; [exact IH|].
  destruct Hhd; simpl; constructor. now apply Hf.
Qed.

Lemma by_score_total {A} (x y : A * Q) : by_score x y = false → by_score y x = true.
Proof.
  unfold by_score. intros Hxy. apply Qle_bool_iff.
  destruct (Qlt_le_dec y.2 x.2) as [Hlt|Hle].
  - now apply Qlt_le_weak.
  - apply Qle_bool_iff in Hle. congruence.
Qed.

Lemma knn_length (distance : list Q → list Q → Q) (s : Redis) (k : nat) (e : list Q) :
  (length (knn distance s k e) ≤ k)%nat.
Proof. unfold knn. rewrite length_take. lia. Qed.

(** C2, as the specification words it, fails: the article asked about is in
    the vector index like any other, at distance 0 from itself, and nothing
    removes it from the answer. *)
Lemma C2_self_match_counterexample :
  (art_embedding <$> articles one_article !! "a1") = Some (Some [1%Q; 0%Q])
  ∧ ∃ hits,
      findSimilarArticles unit_cosine_distance one_article "a1" 1 = Returned hits
      ∧ In "a1" (map sim_id hits).
Proof.
  split; [vm_compute; reflexivity|].
  eexists. split; [vm_compute; reflexivity|]. simpl. now left.
Qed.

(** C2 (amended): for every stored article with an embedding and every k,
    findSimilarArticles resolves with at most k results, ordered nearest
    first, that is by non-decreasing cosine distance. The article itself is
    not excluded. *)
Theorem C2_similar_articles (distance : list Q → list Q → Q) (s : Redis)
    (articleId : string) (article : Article) (embedding : list Q) (k : nat) :
  articles s !! articleId = Some article →
  art_embedding article = Some embedding →
  ∃ hits,
    findSimilarArticles distance s articleId k = Returned hits
    ∧ (length hits ≤ k)%nat
    ∧ StronglySorted (fun x y => (similarity x <= similarity y)%Q) hits.
Proof.
  intros Harticle Hembedding. unfold findSimilarArticles.
  rewrite Harticle, Hembedding. eexists. split; [reflexivity|].
  rewrite length_map, length_take, sort_by_length.
  pose proof (knn_length distance s k embedding).
  split; [lia|].
  assert (Htrans : Transitive (fun x y : SimilarHit => (similarity x <= similarity y)%Q))
    by (intros x y z; apply Qle_trans).
  apply (@Sorted_StronglySorted _ _ Htrans).
  apply (Sorted_map to_similar (fun u v => by_score u v = true)).
  - intros x y Hxy. now apply Qle_bool_iff.
  - apply Sorted_take, sort_by_Sorted. intros x y. apply by_score_total.
Qed.

Lemma C2_similar_articles_witness :
  ∃ hits,
    findSimilarArticles unit_cosine_distance two_articles "a1" 5 = Returned hits
    ∧ (length hits ≤ 5)%nat
    ∧ StronglySorted (fun x y => (similarity x <= similarity y)%Q) hits.
Proof.
  apply (C2_similar_articles unit_cosine_distance two_articles "a1"
           (demo_article "a1" "tech" 1000) [1%Q; 0%Q] 5); vm_compute; reflexivity.
Defined.

(** ** The trending rebuild, command by command *)

Lemma run_zadds (scores : list (string * Q)) (s : Redis) :
  run (map (fun entry => ZADD_trending entry.2 entry.1) scores) s
  = with_trending (zadd_all scores) s.
Proof.
  revert s. induction scores as [|entry rest IH]; intros s.
  - destruct s; reflexivity.
  - unfold run in *. simpl. rewrite IH. reflexivity.
Qed.

Lemma run_rebuild (scores : list (string * Q)) (s : Redis) :
  run (DEL_trending :: map (fun entry => ZADD_trending entry.2 entry.1) scores) s
  = with_trending (fun _ => ranking_of scores) s.
Proof.
  change (run (DEL_trending :: ?c) s) with (run c (exec s DEL_trending)).
  rewrite run_zadds. reflexivity.
Qed.



Lemma take_In {A} (n : nat) (l : list A) (x : A) : In x (take n l) → In x l.
Proof.
  revert n. induction l as [|y l IH]; intros [|n]; simpl; try tauto.
  intros [->|Hin]; eauto.
Qed.

Lemma drop_In {A} (n : nat) (l : list A) (x : A) : In x (drop n l) → In x l.
Proof.
  revert n. induction l as [|y l IH]; intros [|n]; simpl; try tauto.
  intros Hin. eauto.
Qed.

Lemma zrevrange_In (z : list (string * Q)) (start stop : Z) (e : string * Q) :
  In e (zrevrange z start stop) → In e z.
Proof.
  unfold zrevrange. destruct (_ <? _)%Z; [intros []|].
  intros Hin. apply (sort_by_In zrev_before).
  eapply drop_In, take_In, Hin.
Qed.


Lemma getTrendingArticles_entries (s : Redis) (limit : nat) (items : list TrendingArticle)
    (item : TrendingArticle) :
  getTrendingArticles s limit = Returned items → In item items →
  ∃ entry, In entry (trending s)
           ∧ articles s !! entry.1 = Some (tr_article item)
           ∧ trendingScore item = entry.2.
Proof.
  intros [= <-] Hin. apply in_flat_map in Hin as (entry & Hentry & Hitem).
  exists entry. split; [eapply zrevrange_In, Hentry|].
  destruct (articles s !! entry.1) as [article|]; [|destruct Hitem].
  destruct Hitem as [<-|[]]. split; reflexivity.
Qed.




(** ** The scores of a rebuild *)

Lemma filter_sublist {A} (p : A → bool) (l : list A) : List.filter p l `sublist_of` l.
Proof.
  induction l as [|x l IH]; simpl; [constructor|].
  destruct (p x); now constructor.
Qed.

Lemma indexed_In (s : Redis) (doc : string * Article) :
  In doc (indexed s) ↔ articles s !! doc.1 = Some doc.2 ∧ index_filter doc.2 = true.
Proof.
  unfold indexed. rewrite filter_In, <- list_elem_of_In.
  destruct doc as [key article]. now rewrite elem_of_map_to_list.
Qed.

Lemma indexed_keys_NoDup (s : Redis) : NoDup (indexed s).*1.
Proof.
  eapply sublist_NoDup; [|apply fmap_sublist, filter_sublist].
  apply NoDup_fst_map_to_list.
Qed.









Lemma updateTrendingArticles_articles (Math_exp : Q → Q)
    (text_matches : string → string → bool) (s : Redis) :
  articles (updateTrendingArticles Math_exp text_matches s) = articles s.
Proof.
  unfold updateTrendingArticles, updateTrendingArticles_commands.
  now rewrite run_rebuild.
Qed.





(** The same from ingestion on: one article, published now, processed into
    an empty store, is the answer of top(1) with score 1. *)
Example ingest_cold_start :
  ∃ item,
    getTrendingArticles
      (processNewsArticle exp_poly contains_term demo_analyzeContent demo_generateEmbedding
         (demo_raw "n1" "breaking") (empty_redis 1000)).1 1
    = Returned [item]
    ∧ art_id (tr_article item) = "n1"
    ∧ (trendingScore item == 1)%Q.
Proof.
  eexists. split; [vm_compute; reflexivity|]. split; vm_compute; reflexivity.
Qed.


(** ** Batch ingestion *)

Section Batch.
Variable Math_exp : Q → Q.
Variable text_matches : string → string → bool.
Variable analyzeContent : string → outcome Analysis.
Variable generateEmbedding : string → outcome (list Q).

Local Abbreviation process :=
  (processNewsArticle Math_exp text_matches analyzeContent generateEmbedding).
Local Abbreviation enriches := (enriched analyzeContent generateEmbedding).

Lemma processNewsArticle_fulfilled (article : RawArticle) (s : Redis) :
  enriches article = true →
  ∃ processed s',
    process article s = (s', Returned processed)
    ∧ articles s' = <[raw_id article := processed]> (articles s).
Proof.
  unfold enriched, processNewsArticle. intros Hok.
  apply andb_prop in Hok as [Hanalysis Hembedding].
  destruct (analyzeContent (raw_content article)) as [analysis|] eqn:Ha; [|discriminate].
  destruct (generateEmbedding (raw_content article)) as [embedding|] eqn:He; [|discriminate].
  eexists _, _. split; [reflexivity|].
  unfold createSearchIndex. rewrite updateTrendingArticles_articles. reflexivity.
Qed.

Lemma processNewsArticle_rejected (article : RawArticle) (s : Redis) :
  enriches article = false → ∃ e, process article s = (s, Thrown e).
Proof.
  unfold enriched, processNewsArticle. intros Hfails.
  unfold mbind, async_bind, await, settled.
  destruct (analyzeContent (raw_content article)) as [analysis|e] eqn:Ha; [|now exists e].
  destruct (generateEmbedding (raw_content article)) as [embedding|e] eqn:He;
    [discriminate|now exists e].
Qed.

(** Every article settles on its own: the outcomes follow the provider,
    article by article, and no stored document is lost on the way. *)
Lemma allSettled_batch (batch : list RawArticle) (s : Redis) :
  ∃ s' results,
    allSettled (map process batch) s = (s', results)
    ∧ map fulfilled results = map enriches batch
    ∧ (∀ key, is_Some (articles s !! key) → is_Some (articles s' !! key))
    ∧ (∀ article, In article batch → enriches article = true →
                  is_Some (articles s' !! raw_id article)).
Proof.
  revert s. induction batch as [|article rest IH]; intros s.
  - exists s, []. simpl. repeat split; auto. intros ? [].
  - simpl. destruct (enriches article) eqn:Hok.
    + destruct (processNewsArticle_fulfilled article s Hok)
        as (processed & s1 & Hrun & Hstored).
      destruct (IH s1) as (s2 & results & Hrest & Hstatus & Hkept & Hadded).
      exists s2, (Returned processed :: results). rewrite Hrun, Hrest.
      split; [reflexivity|]. split; [simpl; now rewrite Hstatus|]. split.
      * intros key Hkey. apply Hkept. rewrite Hstored.
        destruct (decide (raw_id article = key)) as [->|Hne];
          [rewrite lookup_insert_eq; eauto|now rewrite lookup_insert_ne].
      * intros a [<-|Hin] Ha; [|now apply Hadded].
        apply Hkept. rewrite Hstored, lookup_insert_eq. eauto.
    + destruct (processNewsArticle_rejected article s Hok) as (e & Hrun).
      destruct (IH s) as (s2 & results & Hrest & Hstatus & Hkept & Hadded).
      exists s2, (Thrown e :: results). rewrite Hrun, Hrest.
      split; [reflexivity|]. split; [simpl; now rewrite Hstatus|]. split.
      * exact Hkept.
      * intros a [<-|Hin] Ha; [congruence|now apply Hadded].
Qed.

Lemma count_by_status {A B} (f : A → bool) (g : B → bool) (l : list A) (k : list B) :
  map f l = map g k →
  length (List.filter f l) = length (List.filter g k)
  ∧ length (List.filter (fun x => negb (f x)) l)
    = length (List.filter (fun y => negb (g y)) k).
Proof.
  revert k. induction l as [|x l IH]; intros [|y k]; simpl; try discriminate; [auto|].
  intros [= Hxy Hrest]. destruct (IH k Hrest) as [Hyes Hno].
  rewrite Hxy. destruct (g y); simpl; auto.
Qed.

Lemma filter_all {A} (p : A → bool) (l : list A) :
  (∀ x, In x l → p x = true) →
  List.filter p l = l ∧ List.filter (fun x => negb (p x)) l = [].
Proof.
  induction l as [|x l IH]; simpl; [auto|]. intros Hall.
  rewrite (Hall x (or_introl eq_refl)). simpl.
  destruct IH as [-> ->]; auto.
Qed.

(** C8: when the enrichment of exactly one article of a batch of N fails,
    processBatch does not abort: it resolves with total = N,
    successful = N - 1 and failed = 1, and each of the N - 1 other
    articles is in the document store afterwards. *)
Theorem C8_batch_isolation (before after : list RawArticle) (broken : RawArticle)
    (s : Redis) :
  (∀ article, In article (before ++ after) → enriches article = true) →
  enriches broken = false →
  ∃ s',
    processBatch Math_exp text_matches analyzeContent generateEmbedding
      (before ++ broken :: after) s
    = (s', Returned {| total := length (before ++ broken :: after);
                       successful := length (before ++ broken :: after) - 1;
                       failed := 1 |})
    ∧ ∀ article, In article (before ++ after) →
                 is_Some (articles s' !! raw_id article).
Proof.
  intros Hothers Hbroken.
  destruct (allSettled_batch (before ++ broken :: after) s)
    as (s' & results & Hrun & Hstatus & _ & Hadded).
  exists s'. split.
  - unfold processBatch. rewrite Hrun.
    destruct (count_by_status _ _ _ _ Hstatus) as [Hyes Hno].
    unfold rejected. rewrite Hyes, Hno, !List.filter_app. simpl. rewrite Hbroken. simpl.
    destruct (filter_all enriches before) as [-> ->];
      [intros x Hx; apply Hothers, in_or_app; now left|].
    destruct (filter_all enriches after) as [-> ->];
      [intros x Hx; apply Hothers, in_or_app; now right|].
    rewrite !length_app. simpl. do 3 f_equal. lia.
  - intros article Hin. apply Hadded; [|now apply Hothers].
    apply in_app_or in Hin as [Hin|Hin]; apply in_or_app; [now left|right; now right].
Qed.
End Batch.

Lemma C8_batch_isolation_witness :
  ∃ s',
    processBatch exp_poly contains_term demo_analyzeContent demo_generateEmbedding
      [demo_raw "b1" "first"; demo_raw "b2" ""; demo_raw "b3" "third"] (empty_redis 5)
    = (s', Returned {| total := 3; successful := 2; failed := 1 |})
    ∧ ∀ article, In article [demo_raw "b1" "first"; demo_raw "b3" "third"] →
                 is_Some (articles s' !! raw_id article).
Proof.
  apply (C8_batch_isolation exp_poly contains_term demo_analyzeContent demo_generateEmbedding
           [demo_raw "b1" "first"] [demo_raw "b3" "third"] (demo_raw "b2" "") (empty_redis 5)).
  - intros article [<-|[<-|[]]]; reflexivity.
  - reflexivity.
Defined.

(** * Further properties of the services *)

(** ** Strings *)

Lemma length_append (a b : string) :
  String.length (a ++ b) = (String.length a + String.length b)%nat.
Proof. induction a as [|c a IH]; simpl; [reflexivity|now rewrite IH]. Qed.

Lemma append_cancel_r (a b c : string) : a ++ c = b ++ c → a = b.
Proof.
  revert b. induction a as [|x a IH]; intros [|y b] Heq.
  - reflexivity.
  - apply (f_equal String.length) in Heq. rewrite !length_append in Heq.
    simpl in Heq. exfalso. lia.
  - apply (f_equal String.length) in Heq. rewrite !length_append in Heq.
    simpl in Heq. exfalso. lia.
  - change (String x (a ++ c) = String y (b ++ c)) in Heq.
    injection Heq as -> Heq. f_equal. now apply IH.
Qed.

Lemma count_key_not_last_updated (action : string) : action ++ ":count" ≠ "last_updated".
Proof.
  intros Heq.
  assert (Hlen : String.length action = 6%nat).
  { apply (f_equal String.length) in Heq. rewrite length_append in Heq. simpl in Heq. lia. }
  pose proof (append_correct2 action ":count" 0) as Hget.
  rewrite Heq, Hlen in Hget. discriminate Hget.
Qed.

(** ** Writing a key with a deadline *)

Lemma fetch_store_value {V} (now : Z) (key : string) (v : V) (m : gmap string (timed V)) :
  fetch now (store_value now key v m) key = Some v.
Proof.
  unfold fetch, store_value.
  destruct (m !! key) as [t|] eqn:Hm.
  - destruct (live now t) eqn:Hlive; rewrite lookup_insert_eq; simpl.
    + unfold live in *. simpl. destruct (deadline t); now try rewrite Hlive.
    + reflexivity.
  - rewrite lookup_insert_eq. reflexivity.
Qed.

Lemma fetch_store_value_other {V} (now later : Z) (key other : string) (v : V)
    (m : gmap string (timed V)) :
  key ≠ other → fetch later (store_value now key v m) other = fetch later m other.
Proof.
  intros Hne. unfold fetch at 1 2, store_value.
  destruct (m !! key) as [t|]; [destruct (live now t)|]; now rewrite lookup_insert_ne.
Qed.

Lemma fetch_expire_other {V} (now later : Z) (key other : string) (seconds : Z)
    (m : gmap string (timed V)) :
  key ≠ other →
  fetch later (expire now key seconds m) other = fetch later m other.
Proof.
  intros Hne. unfold expire, fetch at 1 3.
  destruct (fetch now m key); [destruct (seconds <=? 0)%Z|];
    now rewrite ?lookup_delete_ne, ?lookup_insert_ne.
Qed.

(** ** Engagement events *)

(** The record of an article from an event on, until seven days have
    passed. *)
Lemma trackEngagement_record (s : Redis) (articleId action : string) (later : Z) :
  (later < clock s + SEVEN_DAYS * 1000)%Z →
  hgetall later (engagement (trackEngagement s articleId action)) articleId
  = <["last_updated" := clock s]>
      (<[action ++ ":count" :=
           (default 0%Z (hgetall (clock s) (engagement s) articleId !! (action ++ ":count")) + 1)%Z]>
         (hgetall (clock s) (engagement s) articleId)).
Proof.
  intros Hlater. unfold trackEngagement. simpl.
  unfold hgetall at 1, hset, hincrby.
  rewrite fetch_expire_store by (unfold SEVEN_DAYS; lia).
  destruct (Z.ltb_spec later (clock s + SEVEN_DAYS * 1000)) as [_|Hge]; [|lia].
  simpl. unfold hgetall at 1. rewrite fetch_store_value. reflexivity.
Qed.

Lemma trackEngagement_other (s : Redis) (articleId action other : string) (later : Z) :
  articleId ≠ other →
  hgetall later (engagement (trackEngagement s articleId action)) other
  = hgetall later (engagement s) other.
Proof.
  intros Hne. unfold trackEngagement, hgetall. simpl. unfold hset, hincrby.
  now rewrite fetch_expire_other, !fetch_store_value_other.
Qed.

Lemma now_before_deadline (s : Redis) : (clock s < clock s + SEVEN_DAYS * 1000)%Z.
Proof. unfold SEVEN_DAYS. lia. Qed.

(** X1: one event adds one to the counter of its action and to no other
    counter of the article, and touches no other article. *)
Theorem trackEngagement_counts_one_event (s : Redis) (articleId action : string) :
  let before := hgetall (clock s) (engagement s) articleId in
  let after := hgetall (clock s) (engagement (trackEngagement s articleId action)) articleId in
  after !! (action ++ ":count") = Some (default 0%Z (before !! (action ++ ":count")) + 1)%Z
  ∧ after !! "last_updated" = Some (clock s)
  ∧ (∀ other, other ≠ action → after !! (other ++ ":count") = before !! (other ++ ":count"))
  ∧ (∀ otherId later, otherId ≠ articleId →
       hgetall later (engagement (trackEngagement s articleId action)) otherId
       = hgetall later (engagement s) otherId).
Proof.
  intros before after. unfold after.
  rewrite trackEngagement_record by apply now_before_deadline. fold before.
  split; [|split; [|split]].
  - rewrite lookup_insert_ne by (intros H; symmetry in H; now apply count_key_not_last_updated in H).
    now rewrite lookup_insert_eq.
  - now rewrite lookup_insert_eq.
  - intros other Hne.
    rewrite lookup_insert_ne by (intros H; symmetry in H; now apply count_key_not_last_updated in H).
    rewrite lookup_insert_ne; [reflexivity|].
    intros Heq. apply append_cancel_r in Heq. congruence.
  - intros otherId later Hne. now apply trackEngagement_other.
Qed.

Lemma weighted_score_after (h : gmap string Z) (action : string) (now : Z) :
  weighted_score
    (<["last_updated" := now]>
       (<[action ++ ":count" := (default 0%Z (h !! (action ++ ":count")) + 1)%Z]> h))
  = (weighted_score h + action_weight action)%Z.
Proof.
  unfold weighted_score, action_weight.
  rewrite !(lookup_insert_ne _ "last_updated") by discriminate.
  destruct (String.eqb_spec action "view") as [->|Hview].
  { change ("view" ++ ":count") with "view:count".
    rewrite lookup_insert_eq, !lookup_insert_ne by discriminate. simpl. lia. }
  destruct (String.eqb_spec action "like") as [->|Hlike].
  { change ("like" ++ ":count") with "like:count".
    rewrite lookup_insert_eq, !lookup_insert_ne by discriminate. simpl. lia. }
  destruct (String.eqb_spec action "share") as [->|Hshare].
  { change ("share" ++ ":count") with "share:count".
    rewrite lookup_insert_eq, !lookup_insert_ne by discriminate. simpl. lia. }
  rewrite !lookup_insert_ne; [lia| | |].
  - intros Heq. apply (append_cancel_r action "share" ":count") in Heq. contradiction.
  - intros Heq. apply (append_cancel_r action "like" ":count") in Heq. contradiction.
  - intros Heq. apply (append_cancel_r action "view" ":count") in Heq. contradiction.
Qed.

(** X2: from an event on and for less than seven days, the engagement score
    of the article is the weighted sum it had before plus the weight of the
    action (view 1, like 2, share 3, anything else 0), and at least 1. *)
Theorem trackEngagement_score (s : Redis) (articleId action : string) (d : Z) :
  (0 ≤ d < SEVEN_DAYS * 1000)%Z →
  getEngagementScore (elapse d (trackEngagement s articleId action)) articleId
  = Z.max (weighted_score (hgetall (clock s) (engagement s) articleId)
           + action_weight action) 1.
Proof.
  intros [Hd0 Hd]. unfold getEngagementScore.
  change (clock (elapse d (trackEngagement s articleId action))) with (clock s + d)%Z.
  change (engagement (elapse d (trackEngagement s articleId action)))
    with (engagement (trackEngagement s articleId action)).
  rewrite trackEngagement_record by lia.
  rewrite weighted_score_after.
  destruct (Nat.eqb_spec (size (<["last_updated" := clock s]>
    (<[action ++ ":count" :=
         (default 0%Z (hgetall (clock s) (engagement s) articleId !! (action ++ ":count")) + 1)%Z]>
       (hgetall (clock s) (engagement s) articleId)))) 0) as [Hempty|_]; [|reflexivity].
  apply map_size_empty_iff in Hempty. now apply insert_non_empty in Hempty.
Qed.

Lemma trackEngagement_score_witness :
  (0 ≤ 60000 < SEVEN_DAYS * 1000)%Z
  ∧ getEngagementScore (elapse 60000 (trackEngagement two_articles "a2" "share")) "a2" = 15%Z.
Proof.
  assert (Hd : (0 ≤ 60000 < SEVEN_DAYS * 1000)%Z) by (unfold SEVEN_DAYS; lia).
  split; [exact Hd|].
  rewrite (trackEngagement_score two_articles "a2" "share" 60000 Hd).
  vm_compute. reflexivity.
Defined.

(** X3: seven days after the last event of an article its record is gone
    and its engagement score is the default, 1. *)
Theorem engagement_expires (s : Redis) (articleId action : string) (d : Z) :
  (SEVEN_DAYS * 1000 ≤ d)%Z →
  hgetall (clock s + d) (engagement (trackEngagement s articleId action)) articleId = ∅
  ∧ getEngagementScore (elapse d (trackEngagement s articleId action)) articleId = 1%Z.
Proof.
  intros Hd.
  assert (Hgone : hgetall (clock s + d) (engagement (trackEngagement s articleId action))
                    articleId = ∅).
  { unfold trackEngagement, hgetall. simpl. unfold hset, hincrby.
    rewrite fetch_expire_store by (unfold SEVEN_DAYS; lia).
    destruct (Z.ltb_spec (clock s + d) (clock s + SEVEN_DAYS * 1000)) as [Hlt|_];
      [lia|reflexivity]. }
  split; [exact Hgone|].
  unfold getEngagementScore.
  change (clock (elapse d (trackEngagement s articleId action))) with (clock s + d)%Z.
  change (engagement (elapse d (trackEngagement s articleId action)))
    with (engagement (trackEngagement s articleId action)).
  rewrite Hgone. reflexivity.
Qed.

Lemma engagement_expires_witness :
  (SEVEN_DAYS * 1000 ≤ 604800000)%Z
  ∧ getEngagementScore (elapse 604800000 (trackEngagement two_articles "a2" "view")) "a2" = 1%Z.
Proof.
  assert (Hd : (SEVEN_DAYS * 1000 ≤ 604800000)%Z) by (unfold SEVEN_DAYS; lia).
  split; [exact Hd|].
  apply (engagement_expires two_articles "a2" "view" 604800000 Hd).
Defined.

(** ** Recording a view *)

Lemma trackArticleView_record (s : Redis) (userId articleId : string) :
  hgetall (clock s) (engagement (trackArticleView s userId articleId)) articleId
  = <["last_updated" := clock s]>
      (<["view:count" :=
           (default 0%Z (hgetall (clock s) (engagement s) articleId !! "view:count") + 1)%Z]>
         (hgetall (clock s) (engagement s) articleId)).
Proof.
  exact (trackEngagement_record
           (with_personalized (srem userId articleId)
              (with_viewed (sadd userId articleId) s))
           articleId "view" (clock s) (now_before_deadline s)).
Qed.

(** X4: recording a view puts the article in the viewed set of the user and
    takes nothing out of it; a second recording leaves the viewed sets as
    they are, yet counts as a second view of the article. Other users'
    viewed sets, the documents, the preferences, the ranking and the cache
    are untouched. *)
Theorem trackArticleView_effect (s : Redis) (userId articleId : string) :
  let once := trackArticleView s userId articleId in
  let twice := trackArticleView once userId articleId in
  articleId ∈ default ∅ (viewed once !! userId)
  ∧ default ∅ (viewed s !! userId) ⊆ default ∅ (viewed once !! userId)
  ∧ (∀ other, other ≠ userId → viewed once !! other = viewed s !! other)
  ∧ viewed twice = viewed once
  ∧ default 0%Z (hgetall (clock s) (engagement twice) articleId !! "view:count")
    = (default 0%Z (hgetall (clock s) (engagement s) articleId !! "view:count") + 2)%Z
  ∧ articles once = articles s ∧ preferences once = preferences s
  ∧ trending once = trending s ∧ cache once = cache s.
Proof.
  intros once twice.
  assert (Hviewed : viewed once = sadd userId articleId (viewed s)) by reflexivity.
  split; [|split; [|split; [|split; [|split]]]].
  - rewrite Hviewed. unfold sadd. rewrite lookup_insert_eq. simpl.
    apply elem_of_union_l, elem_of_singleton. reflexivity.
  - rewrite Hviewed. unfold sadd. rewrite lookup_insert_eq. simpl.
    apply union_subseteq_r.
  - intros other Hne. rewrite Hviewed. unfold sadd. now rewrite lookup_insert_ne.
  - change (viewed twice) with (sadd userId articleId (viewed once)).
    rewrite Hviewed. unfold sadd. rewrite lookup_insert_eq, insert_insert_eq. simpl.
    f_equal. rewrite (assoc_L (∪)), (idemp_L (∪)). reflexivity.
  - pose proof (trackArticleView_record once userId articleId) as Hsecond.
    change (clock once) with (clock s) in Hsecond. fold twice in Hsecond.
    rewrite Hsecond. unfold once. rewrite trackArticleView_record.
    rewrite !(lookup_insert_ne _ "last_updated") by discriminate.
    rewrite !lookup_insert_eq. simpl. lia.
  - repeat split; reflexivity.
Qed.

(** ** Storing an article *)

(** X5: storeArticle resolves with the id of the article; afterwards the
    document under that id is the article, whatever was there before, and
    every other document is as it was. Storing the same article again
    changes nothing. *)
Theorem storeArticle_upsert (article : Article) (s : Redis) :
  ∃ s',
    storeArticle article s = (s', Returned (art_id article))
    ∧ articles s' !! art_id article = Some article
    ∧ (∀ id, id ≠ art_id article → articles s' !! id = articles s !! id)
    ∧ storeArticle article s' = (s', Returned (art_id article)).
Proof.
  eexists. split; [reflexivity|]. unfold createSearchIndex. simpl.
  split; [apply lookup_insert_eq|]. split.
  - intros id Hne. now apply lookup_insert_ne.
  - unfold storeArticle, mbind, async_bind, await, command_of, createSearchIndex,
      with_articles. simpl. rewrite insert_insert_eq. reflexivity.
Qed.

(** ** Similar articles: rejections and results *)


Lemma embedded_keys_sublist (distance : list Q → list Q → Q) (e : list Q)
    (docs : list (string * Article)) :
  map (fun r : (string * Article) * Q => r.1.1)
    (flat_map
       (fun doc => match art_embedding doc.2 with
                   | Some v => [(doc, distance e v)]
                   | None => []
                   end) docs)
  `sublist_of` map fst docs.
Proof.
  induction docs as [|doc docs IH]; simpl; [constructor|].
  destruct (art_embedding doc.2); simpl; now constructor.
Qed.

(** X7: every result of findSimilarArticles is an indexed article that has
    an embedding, taken once, and its similarity is the distance between
    the embedding of the query article and its own. *)
Theorem findSimilarArticles_results (distance : list Q → list Q → Q) (s : Redis)
    (articleId : string) (limit : nat) (hits : list SimilarHit) :
  findSimilarArticles distance s articleId limit = Returned hits →
  NoDup (map sim_id hits)
  ∧ ∃ query e,
      articles s !! articleId = Some query ∧ art_embedding query = Some e
      ∧ ∀ hit, In hit hits →
          ∃ article v,
            articles s !! sim_id hit = Some article
            ∧ index_filter article = true
            ∧ art_embedding article = Some v
            ∧ similarity hit = distance e v
            ∧ sim_title hit = art_title article
            ∧ sim_content hit = art_content article.
Proof.
  unfold findSimilarArticles.
  destruct (articles s !! articleId) as [query|] eqn:Hquery; [|discriminate].
  destruct (art_embedding query) as [e|] eqn:He; [|discriminate].
  intros [= <-]. split.
  - rewrite map_map.
    change (NoDup (map (fun r : (string * Article) * Q => r.1.1)
                     (take DEFAULT_LIMIT (sort_by by_score (knn distance s limit e))))).
    eapply sublist_NoDup;
      [|apply (fmap_sublist (fun r : (string * Article) * Q => r.1.1)), sublist_take].
    eapply NoDup_Permutation_proper; [apply fmap_Permutation, sort_by_perm|].
    unfold knn.
    eapply sublist_NoDup;
      [|apply (fmap_sublist (fun r : (string * Article) * Q => r.1.1)), sublist_take].
    eapply NoDup_Permutation_proper; [apply fmap_Permutation, sort_by_perm|].
    eapply sublist_NoDup; [|apply embedded_keys_sublist].
    apply indexed_keys_NoDup.
  - exists query, e. split; [reflexivity|]. split; [exact He|].
    intros hit Hhit. apply in_map_iff in Hhit as (r & <- & Hr).
    apply take_In in Hr. apply (proj1 (sort_by_In by_score _ _)) in Hr. unfold knn in Hr.
    apply take_In in Hr. apply (proj1 (sort_by_In by_score _ _)) in Hr.
    apply in_flat_map in Hr as (doc & Hdoc & Hr).
    apply indexed_In in Hdoc as [Hstored Hfilter].
    destruct (art_embedding doc.2) as [v|] eqn:Hv; [|destruct Hr].
    destruct Hr as [<-|[]]. exists doc.2, v. simpl. repeat split; auto.
Qed.

Lemma findSimilarArticles_results_witness :
  ∃ hits,
    findSimilarArticles unit_cosine_distance two_articles "a1" 5 = Returned hits
    ∧ NoDup (map sim_id hits)
    ∧ length hits = 2%nat.
Proof.
  eexists. split; [vm_compute; reflexivity|]. split; [|reflexivity].
  eapply (findSimilarArticles_results unit_cosine_distance two_articles "a1" 5).
  vm_compute. reflexivity.
Defined.

(** ** What a search returns *)








(** ** Reading the ranking *)

Lemma zrev_before_total (x y : string * Q) :
  zrev_before x y = false → zrev_before y x = true.
Proof.
  unfold zrev_before. rewrite <- (Qcompare_antisym x.2 y.2).
  destruct (x.2 ?= y.2)%Q; simpl; try discriminate; [|reflexivity].
  unfold String.ltb. rewrite (String.compare_antisym x.1 y.1).
  destruct (y.1 ?= x.1)%string; simpl; intros H; discriminate || reflexivity.
Qed.

Lemma zrev_before_score (x y : string * Q) : zrev_before x y = true → (y.2 <= x.2)%Q.
Proof.
  unfold zrev_before. destruct (Qcompare_spec x.2 y.2) as [Heq|Hlt|Hgt]; intros Hb.
  - rewrite Heq. apply Qle_refl.
  - discriminate.
  - now apply Qlt_le_weak.
Qed.

Lemma StronglySorted_take {A} (R : A → A → Prop) (n : nat) (l : list A) :
  StronglySorted R l → StronglySorted R (take n l).
Proof.
  intros Hl. revert n. induction Hl as [|x l Hl IH Hall]; intros [|n]; simpl;
    try constructor; [apply IH|].
  apply List.Forall_forall. intros y Hy. apply take_In in Hy.
  now apply (proj1 (List.Forall_forall _ _) Hall).
Qed.

Lemma StronglySorted_drop {A} (R : A → A → Prop) (n : nat) (l : list A) :
  StronglySorted R l → StronglySorted R (drop n l).
Proof.
  intros Hl. revert n. induction Hl as [|x l Hl IH Hall]; intros [|n]; simpl;
    try constructor; auto.
Qed.

Lemma zrevrange_sorted (z : list (string * Q)) (start stop : Z) :
  StronglySorted (fun x y : string * Q => (y.2 <= x.2)%Q) (zrevrange z start stop).
Proof.
  unfold zrevrange. destruct (_ <? _)%Z; [constructor|].
  apply StronglySorted_take, StronglySorted_drop.
  assert (Htrans : Transitive (fun x y : string * Q => (y.2 <= x.2)%Q))
    by (intros x y w Hxy Hyw; eapply Qle_trans; eassumption).
  apply (@Sorted_StronglySorted _ _ Htrans).
  rewrite <- (map_id (sort_by zrev_before z)).
  apply (Sorted_map (fun x => x) (fun u v => zrev_before u v = true)).
  - intros x y. apply zrev_before_score.
  - apply sort_by_Sorted. apply zrev_before_total.
Qed.

Lemma zrevrange_length (z : list (string * Q)) (limit : nat) :
  (1 ≤ limit)%nat → (length (zrevrange z 0 (Z.of_nat limit - 1)) ≤ limit)%nat.
Proof.
  intros Hlimit. unfold zrevrange. change (0 <? 0)%Z with false. cbv iota.
  destruct (Z.ltb_spec (Z.of_nat limit - 1) 0) as [Hneg|_]; [lia|].
  destruct (_ <? _)%Z; simpl; [lia|].
  rewrite length_take. lia.
Qed.

Lemma zrevrange_all (z : list (string * Q)) :
  zrevrange z 0 (Z.of_nat 0 - 1) = sort_by zrev_before z.
Proof.
  unfold zrevrange. change (Z.of_nat 0 - 1)%Z with (-1)%Z.
  change (0 <? 0)%Z with false. change (-1 <? 0)%Z with true. cbv iota.
  destruct (sort_by zrev_before z) as [|x rest]; [reflexivity|].
  destruct (Z.ltb_spec (Z.of_nat (length (x :: rest)) + -1) 0) as [Hneg|_];
    [simpl length in Hneg; lia|].
  rewrite drop_0, take_ge; [reflexivity|]. simpl length. lia.
Qed.

Lemma ranked_items_sorted (docs : gmap string Article) (entries : list (string * Q)) :
  StronglySorted (fun x y : string * Q => (y.2 <= x.2)%Q) entries →
  StronglySorted (fun a b => (trendingScore b <= trendingScore a)%Q)
    (flat_map
       (fun entry : string * Q =>
          match docs !! entry.1 with
          | Some article => [ {| tr_article := article; trendingScore := entry.2 |} ]
          | None => []
          end) entries).
Proof.
  induction 1 as [|entry entries Hsorted IH Hall]; simpl; [constructor|].
  destruct (docs !! entry.1) as [article|]; simpl; [|exact IH].
  constructor; [exact IH|].
  apply List.Forall_forall. intros item Hitem.
  apply in_flat_map in Hitem as (other & Hother & Hitem).
  destruct (docs !! other.1); [|destruct Hitem]. destruct Hitem as [<-|[]]. simpl.
  now apply (proj1 (List.Forall_forall _ _) Hall).
Qed.

Lemma ranked_items_length (docs : gmap string Article) (entries : list (string * Q)) :
  (length
     (flat_map
        (fun entry : string * Q =>
           match docs !! entry.1 with
           | Some article => [ {| tr_article := article; trendingScore := entry.2 |} ]
           | None => []
           end) entries) ≤ length entries)%nat.
Proof.
  induction entries as [|entry entries IH]; simpl; [lia|].
  rewrite length_app. destruct (docs !! entry.1); simpl; lia.
Qed.

(** X10: getTrendingArticles returns stored articles from the ranking,
    each with its score, highest score first; for a limit of 1 or more, at
    most that many. *)
Theorem getTrendingArticles_ranked (s : Redis) (limit : nat) (items : list TrendingArticle) :
  getTrendingArticles s limit = Returned items →
  StronglySorted (fun a b => (trendingScore b <= trendingScore a)%Q) items
  ∧ ((1 ≤ limit)%nat → (length items ≤ limit)%nat)
  ∧ ∀ item, In item items →
      ∃ entry, In entry (trending s)
               ∧ articles s !! entry.1 = Some (tr_article item)
               ∧ trendingScore item = entry.2.
Proof.
  intros Hrun. split; [|split].
  - injection Hrun as <-. apply ranked_items_sorted, zrevrange_sorted.
  - intros Hlimit. injection Hrun as <-.
    etransitivity; [apply ranked_items_length|now apply zrevrange_length].
  - intros item Hitem. eapply getTrendingArticles_entries; eassumption.
Qed.

Lemma getTrendingArticles_ranked_witness :
  ∃ items,
    getTrendingArticles (updateTrendingArticles exp_poly contains_term two_articles) 1
    = Returned items
    ∧ StronglySorted (fun a b => (trendingScore b <= trendingScore a)%Q) items
    ∧ (length items ≤ 1)%nat.
Proof.
  eexists.
  assert (Hrun : getTrendingArticles
                   (updateTrendingArticles exp_poly contains_term two_articles) 1
                 = Returned
                     (match getTrendingArticles
                              (updateTrendingArticles exp_poly contains_term two_articles) 1
                      with Returned items => items | Thrown _ => [] end))
    by reflexivity.
  split; [exact Hrun|].
  destruct (getTrendingArticles_ranked _ _ _ Hrun) as (Hsorted & Hlength & _).
  split; [exact Hsorted|]. apply Hlength. lia.
Defined.

(** X11: a limit of 0 does not mean no article: ZREVRANGE then runs from 0
    to -1, the whole ranking, and every ranked article that is stored is
    returned. *)
Theorem getTrendingArticles_limit_zero (s : Redis) (entry : string * Q) (article : Article) :
  In entry (trending s) → articles s !! entry.1 = Some article →
  ∃ items,
    getTrendingArticles s 0 = Returned items
    ∧ In {| tr_article := article; trendingScore := entry.2 |} items.
Proof.
  intros Hentry Hstored. eexists. split; [reflexivity|].
  rewrite zrevrange_all. apply in_flat_map. exists entry.
  split; [now apply (sort_by_In zrev_before)|].
  rewrite Hstored. now left.
Qed.

Lemma getTrendingArticles_limit_zero_witness :
  ∃ items,
    getTrendingArticles (updateTrendingArticles exp_poly contains_term two_articles) 0
    = Returned items
    ∧ length items = 2%nat.
Proof.
  destruct (getTrendingArticles_limit_zero
              (updateTrendingArticles exp_poly contains_term two_articles)
              ("a1", trending_score exp_poly two_articles "a1" (demo_article "a1" "tech" 1000))
              (demo_article "a1" "tech" 1000)) as (items & Hrun & _).
  - vm_compute. now left.
  - vm_compute. reflexivity.
  - exists items. split; [exact Hrun|].
    vm_compute in Hrun. injection Hrun as <-. reflexivity.
Defined.

(** ** What a rebuild writes *)


(** X12: a rebuild does not depend on the ranking it replaces: whatever the
    old ranking holds, the new one is the same, and a second rebuild at the
    same moment changes nothing. A rebuild touches the ranking only. *)
Theorem updateTrendingArticles_replaces (Math_exp : Q → Q)
    (text_matches : string → string → bool) (s : Redis) (old : list (string * Q)) :
  trending (updateTrendingArticles Math_exp text_matches (with_trending (fun _ => old) s))
  = trending (updateTrendingArticles Math_exp text_matches s)
  ∧ updateTrendingArticles Math_exp text_matches
      (updateTrendingArticles Math_exp text_matches s)
    = updateTrendingArticles Math_exp text_matches s
  ∧ clock (updateTrendingArticles Math_exp text_matches s) = clock s
  ∧ articles (updateTrendingArticles Math_exp text_matches s) = articles s
  ∧ preferences (updateTrendingArticles Math_exp text_matches s) = preferences s
  ∧ viewed (updateTrendingArticles Math_exp text_matches s) = viewed s
  ∧ engagement (updateTrendingArticles Math_exp text_matches s) = engagement s
  ∧ cache (updateTrendingArticles Math_exp text_matches s) = cache s.
Proof.
  assert (Hform : ∀ st, updateTrendingArticles Math_exp text_matches st
                        = with_trending
                            (fun _ => ranking_of (trendingScores Math_exp text_matches st)) st)
    by (intros st; apply run_rebuild).
  split; [|split].
  - rewrite !Hform. reflexivity.
  - rewrite (Hform (updateTrendingArticles Math_exp text_matches s)), (Hform s). reflexivity.
  - rewrite Hform. repeat split; reflexivity.
Qed.








(** ** The result cache, key by key *)

(** X15: a cached payload that JavaScript takes for true is handed back for
    exactly [seconds] seconds, whatever the key held before. *)
Theorem cache_entry_lifetime (s : Redis) (key : string) (v : json) (seconds d : Z) :
  truthy v = true → (0 ≤ d)%Z →
  getCache (elapse d (setCacheWithTTL s key v seconds)) key
  = if (d <? seconds * 1000)%Z then v else JNull.
Proof.
  intros Htruthy Hd. destruct (Z.ltb_spec d (seconds * 1000)).
  - now apply getCache_within_ttl.
  - now apply getCache_after_ttl.
Qed.

Lemma cache_entry_lifetime_witness :
  truthy (JArr [JStr "a1"]) = true
  ∧ (0 ≤ 1000)%Z
  ∧ getCache (elapse 1000
                (setCacheWithTTL (setCacheWithTTL one_article "k" (JNum 3) 5) "k"
                   (JArr [JStr "a1"]) 3600)) "k"
    = JArr [JStr "a1"].
Proof.
  assert (Htruthy : truthy (JArr [JStr "a1"]) = true) by reflexivity.
  assert (Hd : (0 ≤ 1000)%Z) by lia.
  split; [exact Htruthy|]. split; [exact Hd|].
  apply (cache_entry_lifetime _ "k" _ 3600 1000 Htruthy Hd).
Defined.

(** X16: caching under one key changes what no other key returns, at any
    later time. *)
Theorem setCacheWithTTL_other_keys (s : Redis) (key other : string) (v : json)
    (seconds d : Z) :
  key ≠ other →
  getCache (elapse d (setCacheWithTTL s key v seconds)) other = getCache (elapse d s) other.
Proof.
  intros Hne. unfold getCache, setCacheWithTTL. simpl.
  now rewrite fetch_expire_other, fetch_store_value_other.
Qed.

Lemma setCacheWithTTL_other_keys_witness :
  "k" ≠ "j"
  ∧ getCache (elapse 10 (setCacheWithTTL (setCacheWithTTL one_article "j" (JNum 7) 60) "k"
                            (JNum 9) 60)) "j"
    = JNum 7.
Proof.
  assert (Hne : "k" ≠ "j") by discriminate.
  split; [exact Hne|].
  rewrite (setCacheWithTTL_other_keys _ "k" "j" (JNum 9) 60 10 Hne).
  vm_compute. reflexivity.
Defined.

(** ** Processing one article, and a batch *)

Section Processing.
Variable Math_exp : Q → Q.
Variable text_matches : string → string → bool.
Variable distance : list Q → list Q → Q.
Variable analyzeContent : string → outcome Analysis.
Variable generateEmbedding : string → outcome (list Q).

Local Abbreviation process :=
  (processNewsArticle Math_exp text_matches analyzeContent generateEmbedding).
Local Abbreviation enriches := (enriched analyzeContent generateEmbedding).
Local Abbreviation rebuild := (updateTrendingArticles Math_exp text_matches).

(** X17: when the analysis or the embedding of an article is rejected,
    processNewsArticle rejects with the same message (the one of the
    analysis when both would fail) and leaves the store exactly as it
    was. *)
Theorem processNewsArticle_failure (article : RawArticle) (s : Redis) (e : string) :
  analyzeContent (raw_content article) = Thrown e
  ∨ (fulfilled (analyzeContent (raw_content article)) = true
     ∧ generateEmbedding (raw_content article) = Thrown e) →
  process article s = (s, Thrown e).
Proof.
  unfold processNewsArticle, mbind, async_bind, await, settled.
  intros [Ha|[Ha He]].
  - now rewrite Ha.
  - destruct (analyzeContent (raw_content article)); [|discriminate]. now rewrite He.
Qed.

(** X18: when both calls to the provider succeed, processNewsArticle
    resolves with the processed article: the raw article with the summary,
    sentiment and keywords of the analysis and with the embedding.
    Afterwards that article is the document under its id, the ranking is
    the one a rebuild computes on the store that holds it, and
    findSimilarArticles on its id does not reject. *)
Theorem processNewsArticle_success (article : RawArticle) (s : Redis)
    (analysis : Analysis) (embedding : list Q) (k : nat) :
  analyzeContent (raw_content article) = Returned analysis →
  generateEmbedding (raw_content article) = Returned embedding →
  ∃ processed s',
    process article s = (s', Returned processed)
    ∧ art_id processed = raw_id article
    ∧ art_title processed = raw_title article
    ∧ art_content processed = raw_content article
    ∧ art_publishedAt processed = raw_publishedAt article
    ∧ art_summary processed = an_summary analysis
    ∧ art_sentiment processed = an_sentiment analysis
    ∧ art_keywords processed = an_keywords analysis
    ∧ art_embedding processed = Some embedding
    ∧ articles s' = <[raw_id article := processed]> (articles s)
    ∧ s' = rebuild (with_articles (insert (raw_id article) processed) s)
    ∧ fulfilled (findSimilarArticles distance s' (raw_id article) k) = true.
Proof.
  intros Ha He. eexists _, _. split.
  { unfold processNewsArticle, mbind, async_bind, await, settled. rewrite Ha, He.
    reflexivity. }
  unfold createSearchIndex. simpl.
  repeat (split; [reflexivity|]).
  split; [now rewrite updateTrendingArticles_articles|]. split; [reflexivity|].
  unfold findSimilarArticles.
  rewrite updateTrendingArticles_articles. simpl. rewrite lookup_insert_eq. reflexivity.
Qed.

(** X19: processBatch always resolves. Its report counts every article of
    the batch once: total is the size of the batch, successful the number
    of articles both provider calls succeed for, failed the number of the
    others. No document stored before the batch is lost, and an empty batch
    changes nothing. *)
Theorem processBatch_report (batch : list RawArticle) (s : Redis) :
  ∃ s' report,
    processBatch Math_exp text_matches analyzeContent generateEmbedding batch s
    = (s', Returned report)
    ∧ total report = length batch
    ∧ successful report = length (List.filter enriches batch)
    ∧ failed report = length (List.filter (fun a => negb (enriches a)) batch)
    ∧ (successful report + failed report = total report)%nat
    ∧ (∀ key, is_Some (articles s !! key) → is_Some (articles s' !! key))
    ∧ (batch = [] → s' = s).
Proof.
  destruct (allSettled_batch Math_exp text_matches analyzeContent generateEmbedding batch s)
    as (s' & results & Hrun & Hstatus & Hkept & _).
  destruct (count_by_status _ _ _ _ Hstatus) as [Hyes Hno].
  exists s', {| total := length batch;
               successful := length (List.filter fulfilled results);
               failed := length (List.filter rejected results) |}.
  split; [unfold processBatch; now rewrite Hrun|]. simpl.
  split; [reflexivity|]. split; [exact Hyes|]. split; [exact Hno|].
  split; [|split; [exact Hkept|]].
  - unfold rejected. rewrite Hyes, Hno. apply List.filter_length.
  - intros ->. simpl in Hrun. congruence.
Qed.
End Processing.

Lemma processNewsArticle_failure_witness :
  processNewsArticle exp_poly contains_term demo_analyzeContent demo_generateEmbedding
    (demo_raw "b2" "") one_article
  = (one_article, Thrown "EnrichmentUnavailable").
Proof.
  apply (processNewsArticle_failure exp_poly contains_term demo_analyzeContent
           demo_generateEmbedding (demo_raw "b2" "") one_article "EnrichmentUnavailable").
  left. reflexivity.
Defined.

Lemma processNewsArticle_success_witness :
  ∃ processed s',
    processNewsArticle exp_poly contains_term demo_analyzeContent demo_generateEmbedding
      (demo_raw "b1" "first") one_article
    = (s', Returned processed)
    ∧ art_id processed = "b1"
    ∧ articles s' !! "b1" = Some processed.
Proof.
  destruct (processNewsArticle_success exp_poly contains_term unit_cosine_distance
              demo_analyzeContent demo_generateEmbedding (demo_raw "b1" "first") one_article
              (mkAnalysis "first" "neutral" [] []) [1%Q; 0%Q] 5 eq_refl eq_refl)
    as (processed & s' & Hrun & Hid & _ & _ & _ & _ & _ & _ & _ & Hstored & _).
  exists processed, s'. split; [exact Hrun|]. split; [exact Hid|].
  rewrite Hstored. apply lookup_insert_eq.
Defined.

(** ** Selecting topics in the preference form *)











(** ** The client's identity and preferences *)

Section ClientFacts.
Variable generateUserId : outcome string.
Variable storeUserPreferences updateUserPreferences : string → list string → outcome bool.
Variable fetchUserPreferences : string → outcome (option (list string)).

Local Abbreviation save :=
  (UserManager.handleSave generateUserId storeUserPreferences updateUserPreferences).

Lemma getUserId_preferences (ls : LocalStorage) :
  ai_news_user_preferences (UserManager.getUserId generateUserId ls).1
  = ai_news_user_preferences ls.
Proof.
  unfold UserManager.getUserId.
  destruct (present _); [reflexivity|]. now destruct generateUserId.
Qed.

(** X23: the save button either completes or changes nothing of the stored
    preferences. *)
Theorem handleSave_all_or_nothing (selectedTopics : list string) (isUpdate : bool)
    (ls : LocalStorage) :
  let '(ls', toast, completed) := save selectedTopics isUpdate ls in
  (completed = Some selectedTopics
   ∧ selectedTopics ≠ []
   ∧ UserManager.getUserPreferences ls' = Some selectedTopics
   ∧ UserManager.hasPreferences ls' = true
   ∧ toast = (if isUpdate then PreferencesUpdated else PreferencesSaved))
  ∨ (completed = None
     ∧ UserManager.getUserPreferences ls' = UserManager.getUserPreferences ls
     ∧ (toast = NoTopicsSelected ∨ toast = SaveError)).
Proof.
  unfold UserManager.handleSave.
  destruct selectedTopics as [|t rest]; simpl; [right; auto|].
  pose proof (getUserId_preferences ls) as Hkept.
  destruct (UserManager.getUserId generateUserId ls) as [ls1 [userId|e]]; simpl in Hkept;
    [|right; auto].
  destruct isUpdate.
  - unfold UserManager.updatePreferences.
    destruct (updateUserPreferences userId (t :: rest));
      [left; repeat split; auto; discriminate | right; auto].
  - unfold UserManager.syncPreferences.
    destruct (storeUserPreferences userId (t :: rest));
      [left; repeat split; auto; discriminate | right; auto].
Qed.

(** X24: an identity, once issued, is the one every later call returns; the
    server is not asked again. *)
Theorem getUserId_issued_once (again : outcome string) (ls ls1 : LocalStorage)
    (userId : string) :
  UserManager.getUserId generateUserId ls = (ls1, Returned userId) →
  userId ≠ "" →
  UserManager.getUserId again ls1 = (ls1, Returned userId).
Proof.
  unfold UserManager.getUserId. intros Hfirst Hid.
  assert (Hstored : present (ai_news_user_id ls1) = Some userId).
  { destruct (present (ai_news_user_id ls)) as [known|] eqn:Hknown.
    - injection Hfirst as Hls Hu. subst. exact Hknown.
    - destruct generateUserId as [issued|e]; [|discriminate].
      injection Hfirst as Hls Hu. subst. simpl.
      destruct (String.eqb_spec userId ""); [contradiction|reflexivity]. }
  now rewrite Hstored.
Qed.

(** X25: loading the preferences from the server never fails; it returns
    what the server has and keeps a copy, or returns nothing and leaves the
    storage as it is. *)
Theorem loadPreferencesFromServer_outcome (userId : string) (ls : LocalStorage) :
  let '(ls', loaded) := UserManager.loadPreferencesFromServer fetchUserPreferences userId ls in
  ai_news_user_id ls' = ai_news_user_id ls
  ∧ match loaded with
    | Some serverPreferences =>
        fetchUserPreferences userId = Returned (Some serverPreferences)
        ∧ UserManager.getUserPreferences ls' = Some serverPreferences
    | None => ls' = ls
    end.
Proof.
  unfold UserManager.loadPreferencesFromServer.
  destruct (fetchUserPreferences userId) as [[prefs|]|e]; simpl; auto.
Qed.
End ClientFacts.

Lemma getUserId_issued_once_witness :
  UserManager.getUserId (Returned "u1") (mkLocal None None)
  = (mkLocal (Some "u1") None, Returned "u1")
  ∧ "u1" ≠ ""
  ∧ UserManager.getUserId (Thrown "offline") (mkLocal (Some "u1") None)
    = (mkLocal (Some "u1") None, Returned "u1").
Proof.
  assert (Hfirst : UserManager.getUserId (Returned "u1") (mkLocal None None)
                   = (mkLocal (Some "u1") None, Returned "u1")) by reflexivity.
  assert (Hid : "u1" ≠ "") by discriminate.
  split; [exact Hfirst|]. split; [exact Hid|].
  apply (getUserId_issued_once (Returned "u1") (Thrown "offline") _ _ "u1" Hfirst Hid).
Defined.

(** ** The figures of the trending page *)

Lemma sort_by_descending {A} (key : A → Z) (l : list A) :
  StronglySorted (fun a b => (key b ≤ key a)%Z)
    (sort_by (fun a b => (key b <=? key a)%Z) l).
Proof.
  assert (Htrans : Transitive (fun a b : A => (key b ≤ key a)%Z))
    by (intros x y w Hxy Hyw; lia).
  apply (@Sorted_StronglySorted _ _ Htrans).
  rewrite <- (map_id (sort_by _ l)).
  apply (Sorted_map (fun x => x) (fun u v => (key v <=? key u)%Z = true)).
  - intros x y. apply Z.leb_le.
  - apply sort_by_Sorted. intros x y Hxy.
    apply Z.leb_gt in Hxy. apply Z.leb_le. lia.
Qed.

Lemma topic_is_spec (topic : string) (article : ClientArticle) :
  topic_is topic article = true ↔ c_topic article = TopicName topic.
Proof.
  unfold topic_is. destruct (c_topic article) as [name|id name].
  - rewrite String.eqb_eq. split; congruence.
  - split; discriminate.
Qed.

Lemma filter_length_le {A} (p : A → bool) (l : list A) :
  (length (List.filter p l) ≤ length l)%nat.
Proof. apply sublist_length, filter_sublist. Qed.

Lemma sentiment_counts (l : list ClientArticle) :
  Forall (fun a => c_sentiment a = "positive" ∨ c_sentiment a = "negative"
                   ∨ c_sentiment a = "neutral") l →
  length (List.filter (fun a => String.eqb (c_sentiment a) "positive") l)
  + length (List.filter (fun a => String.eqb (c_sentiment a) "negative") l)
  + length (List.filter (fun a => String.eqb (c_sentiment a) "neutral") l)
  = length l.
Proof.
  induction 1 as [|a l Ha _ IH]; [reflexivity|]. simpl.
  destruct Ha as [->|[->| ->]]; simpl; lia.
Qed.

(** X26: when every article carries one of the three sentiments, the three
    counts of the page add up to the number of articles, and each count is
    the size of the list the sentiment filter shows; the filter [all] shows
    every article. *)
Theorem getSentimentStats_partition (allArticles : list ClientArticle) :
  Forall (fun a => c_sentiment a = "positive" ∨ c_sentiment a = "negative"
                   ∨ c_sentiment a = "neutral") allArticles →
  let stats := Trending.getSentimentStats allArticles in
  positive stats + negative stats + neutral stats = length allArticles
  ∧ positive stats = length (Trending.getFilteredArticles allArticles "positive")
  ∧ negative stats = length (Trending.getFilteredArticles allArticles "negative")
  ∧ neutral stats = length (Trending.getFilteredArticles allArticles "neutral")
  ∧ Trending.getFilteredArticles allArticles "all" = allArticles.
Proof.
  intros Hall. simpl. split; [now apply sentiment_counts|]. repeat split.
Qed.

(** X27: the topic figures hold one entry per topic of the list, in the
    order of falling counts; a count is the number of articles whose topic
    is that very name, so an article whose topic is an object is counted
    under no topic. *)
Theorem getTopicStats_ranked (allArticles : list ClientArticle) (topics : list string) :
  let stats := Trending.getTopicStats allArticles topics in
  Permutation (map fst stats) topics
  ∧ StronglySorted (fun a b : string * nat => (b.2 ≤ a.2)%nat) stats
  ∧ (∀ topic count, In (topic, count) stats →
       count = length (List.filter (topic_is topic) allArticles)
       ∧ (count ≤ length allArticles)%nat)
  ∧ (∀ topic article, topic_is topic article = true ↔ c_topic article = TopicName topic).
Proof.
  simpl. unfold Trending.getTopicStats. repeat split.
  - rewrite sort_by_perm, map_map. simpl. now rewrite map_id.
  - assert (Htrans : Transitive (fun a b : string * nat => (b.2 ≤ a.2)%nat))
      by (intros x y w Hxy Hyw; lia).
    apply (@Sorted_StronglySorted _ _ Htrans).
    rewrite <- (map_id (sort_by _ _)).
    apply (Sorted_map (fun x => x) (fun u v : string * nat => (v.2 <=? u.2)%nat = true)).
    + intros x y. apply Nat.leb_le.
    + apply sort_by_Sorted. intros x y Hxy.
      apply Nat.leb_gt in Hxy. apply Nat.leb_le. lia.
  - apply (proj1 (sort_by_In _ _ _)), in_map_iff in H.
    destruct H as (t & Heq & _). congruence.
  - apply (proj1 (sort_by_In _ _ _)), in_map_iff in H.
    destruct H as (t & Heq & _). injection Heq as _ <-. apply filter_length_le.
  - apply topic_is_spec.
  - apply topic_is_spec.
Qed.

(** X28: the recent articles are the twelve newest: at most twelve, all of
    them articles of the page, newest first, and no article left out is newer
    than one that is shown. *)
Theorem getRecentArticles_newest (getTime : string → Z) (allArticles : list ClientArticle) :
  let recent := Trending.getRecentArticles getTime allArticles in
  let time a := getTime (c_publishedAt a) in
  length recent = min 12 (length allArticles)
  ∧ StronglySorted (fun a b => (time b ≤ time a)%Z) recent
  ∧ ∃ rest, Permutation (recent ++ rest)%list allArticles
            ∧ ∀ a b, In a recent → In b rest → (time b ≤ time a)%Z.
Proof.
  simpl. unfold Trending.getRecentArticles.
  pose proof (sort_by_descending (fun a => getTime (c_publishedAt a)) allArticles) as Hsorted.
  set (sorted := sort_by _ allArticles) in *.
  split; [|split].
  - rewrite length_take. unfold sorted. now rewrite sort_by_length.
  - now apply StronglySorted_take.
  - exists (drop 12 sorted). split.
    + rewrite take_drop. apply sort_by_perm.
    + intros a b Ha Hb. rewrite <- (take_drop 12 sorted) in Hsorted.
      apply (StronglySorted_app_1_elem_of _ _ _ a b Hsorted); now apply list_elem_of_In.
Qed.

Lemma getSentimentStats_partition_witness :
  let page := [mkClientArticle "a1" "bbc" "2024-01-01" (TopicName "tech") "positive";
               mkClientArticle "a2" "cnn" "2024-01-02" (TopicObject "t1" "tech") "neutral"] in
  Forall (fun a => c_sentiment a = "positive" ∨ c_sentiment a = "negative"
                   ∨ c_sentiment a = "neutral") page
  ∧ positive (Trending.getSentimentStats page) + negative (Trending.getSentimentStats page)
    + neutral (Trending.getSentimentStats page) = 2.
Proof.
  simpl.
  match goal with |- Forall ?P ?l ∧ _ =>
    assert (Hall : Forall P l) by (repeat constructor; auto)
  end.
  split; [exact Hall|].
  apply (getSentimentStats_partition _ Hall).
Defined.

(** ** The URL of a request *)

Lemma append_assoc (a b c : string) : (a ++ b) ++ c = a ++ (b ++ c).
Proof.
  induction a as [|x a IH]; [reflexivity|].
  change (String x ((a ++ b) ++ c) = String x (a ++ (b ++ c))). now rewrite IH.
Qed.

(** X29: a request goes to the clean base URL, then [/api/], then the
    endpoint as [fetchJSON] was given it: it is the URL [getApiUrl] yields
    for the endpoint with one more slash in front, and for an endpoint that
    starts with a slash it is not the URL [getApiUrl] yields for that
    endpoint. *)
Theorem request_url_slashes (VITE_API_BASE_URL : option string) (endpoint : string) :
  starts_with_slash endpoint = true →
  request_url VITE_API_BASE_URL endpoint = getApiUrl VITE_API_BASE_URL ("/" ++ endpoint)
  ∧ request_url VITE_API_BASE_URL endpoint ≠ getApiUrl VITE_API_BASE_URL endpoint.
Proof.
  intros Hslash. unfold request_url, API_BASE_URL, getApiUrl. rewrite Hslash.
  replace (starts_with_slash ("/" ++ endpoint)) with true
    by (unfold starts_with_slash; simpl; now destruct endpoint).
  change (starts_with_slash "") with false. cbv iota zeta.
  set (clean := if ends_with_slash _ then _ else _).
  split.
  - now rewrite !append_assoc.
  - intros Heq. apply (f_equal String.length) in Heq.
    rewrite !length_append in Heq. simpl in Heq. lia.
Qed.

Lemma request_url_slashes_witness :
  starts_with_slash "/health" = true
  ∧ request_url (Some "https://news.example/") "/health" = "https://news.example/api//health".
Proof.
  assert (Hslash : starts_with_slash "/health" = true) by reflexivity.
  split; [exact Hslash|].
  rewrite (proj1 (request_url_slashes (Some "https://news.example/") "/health" Hslash)).
  vm_compute. reflexivity.
Defined.
